(** * cachet-client: the incident resource and its manager

    A shallow embedding of [cachetclient/v1/incidents.py].  Python values are
    dynamically typed, so every argument and every stored field is a [pyval];
    a dictionary is a finite map from strings.  Client code is a [prog]: a
    finite tree whose inner nodes are the HTTP round-trips it performs, so
    that "no request is issued" is a property one can state and prove. *)

From Stdlib Require Import Floats.SpecFloat.
From stdpp Require Import gmap strings list fin_maps pretty.

Local Open Scope string_scope.
Local Open Scope Z_scope.
Local Open Scope list_scope.

(** ** Python values *)

#[global] Instance spec_float_eq_dec : EqDecision spec_float.
Proof. solve_decision. Defined.

(** The values that travel through [incidents.py] or come decoded from the
    wire: [None], booleans, integers, floats (a sign, a mantissa and a
    binary exponent, or a zero, an infinity or a NaN), strings, the list of
    template variables and a [datetime] (kept as seconds since the
    epoch). *)
Inductive pyval : Type :=
  | PNone
  | PBool (b : bool)
  | PInt (z : Z)
  | PFloat (f : spec_float)
  | PStr (s : string)
  | PStrList (l : list string)
  | PDatetime (t : Z).

#[global] Instance pyval_eq_dec : EqDecision pyval.
Proof. solve_decision. Defined.

Abbreviation dict := (gmap string pyval).

(** Truth value of an object, as used by [1 if x else 0]. *)
Definition truthy (v : pyval) : bool :=
  match v with
  | PNone => false
  | PBool b => b
  | PInt z => negb (z =? 0)
  | PFloat f => match f with S754_zero _ => false | _ => true end
  | PStr s => negb (String.eqb s "")
  | PStrList l => negb (Nat.eqb (length l) 0)
  | PDatetime _ => true
  end.

(** What a number stands for: [m * 2 ^ e], an infinity, or no number. *)
Inductive number : Type :=
  | Finite (m e : Z)
  | Infinite (negative : bool)
  | NaN.

(** [bool] is a subclass of [int]: [True] is 1 and [False] is 0.  A float
    is taken at its exact value. *)
Definition as_number (v : pyval) : option number :=
  match v with
  | PBool b => Some (Finite (if b then 1 else 0) 0)
  | PInt z => Some (Finite z 0)
  | PFloat (S754_zero _) => Some (Finite 0 0)
  | PFloat (S754_infinity negative) => Some (Infinite negative)
  | PFloat S754_nan => Some NaN
  | PFloat (S754_finite negative m e) =>
      Some (Finite (if negative then Z.neg m else Z.pos m) e)
  | _ => None
  end.

(** Numbers are compared exactly, also an integer with a float; a NaN is
    equal to nothing. *)
Definition number_eq (x y : number) : bool :=
  match x, y with
  | Finite m1 e1, Finite m2 e2 =>
      m1 * 2 ^ (e1 - Z.min e1 e2) =? m2 * 2 ^ (e2 - Z.min e1 e2)
  | Infinite s1, Infinite s2 => Bool.eqb s1 s2
  | _, _ => false
  end.

(** Python's [==] on these values: numbers compare by value, strings, lists
    and datetimes with their own kind, anything else is unequal. *)
Definition py_eq (a b : pyval) : bool :=
  match as_number a, as_number b with
  | Some x, Some y => number_eq x y
  | None, None => bool_decide (a = b)
  | _, _ => false
  end.

Definition is_bool (v : pyval) : bool :=
  match v with PBool _ => true | _ => false end.

(** [1 if x else 0] *)
Definition flag (x : pyval) : pyval := PInt (if truthy x then 1 else 0).

(** ** The HTTP client, as a black box *)

Inductive verb : Type := GET | POST | PUT | DELETE.

Record request : Type := mk_request {
  rq_verb : verb;
  rq_url : string;
  rq_payload : dict;
}.

Record pagination : Type := mk_pagination {
  total : Z;
  count : Z;
  per_page : Z;
  current_page : Z;
  total_pages : Z;
}.

(** A decoded response body: one entity under [data], a page of entities
    under [data] with its [meta.pagination], or anything else. *)
Inductive json : Type :=
  | JEntity (data : dict)
  | JPage (data : list dict) (meta : pagination)
  | JOther (v : pyval).

Record response : Type := mk_response {
  rs_status : Z;
  rs_json : json;
}.

(** ** Exceptions *)

(** A raised exception: its class, its message and, for an error that
    carries one, the response (status and body) it was made from. *)
Record exception : Type := mk_exception {
  exc_class : string;
  exc_msg : string;
  exc_response : option response;
}.

Definition ValueError (msg : string) : exception :=
  mk_exception "ValueError" msg None.

(** ** Client computations *)

Inductive prog (A : Type) : Type :=
  | Ret (a : A)
  | Raise (e : exception)
  | Call (rq : request) (k : response → prog A).

Arguments Ret {A} a.
Arguments Raise {A} e.
Arguments Call {A} rq k.

Fixpoint prog_bind {A B : Type} (f : A → prog B) (p : prog A) : prog B :=
  match p with
  | Ret a => f a
  | Raise e => Raise e
  | Call rq k => Call rq (λ r, prog_bind f (k r))
  end.

#[global] Instance prog_mret : MRet prog := @Ret.
#[global] Instance prog_mbind : MBind prog := @prog_bind.

Inductive outcome (A : Type) : Type :=
  | Returned (a : A)
  | Raised (e : exception).

Arguments Returned {A} a.
Arguments Raised {A} e.

(** Running a computation against a server: the server is a state machine
    that answers one request at a time.  The result is the list of requests
    sent, in order, what the computation came to, and the server's state
    afterwards. *)
Section run.
Context {St : Type} (handle : St → request → response * St).

Fixpoint run {A : Type} (p : prog A) (s : St) : list request * outcome A * St :=
  match p with
  | Ret a => ([], Returned a, s)
  | Raise e => ([], Raised e, s)
  | Call rq k =>
      let '(rs, s') := handle s rq in
      let '(sent, o, s'') := run (k rs) s' in
      (rq :: sent, o, s'')
  end.
End run.

(** The number of HTTP round-trips is visible in the computation itself:
    [silent p] says that [p] contains none. *)
Definition silent {A : Type} (p : prog A) : bool :=
  match p with
  | Call _ _ => false
  | _ => true
  end.

(** ** Resource (base class) *)

Module Resource.

(** Modelled from the spec: the base class [Resource] of
    [cachetclient/base.py] is not among the sources.  A resource wraps one
    JSON object, a mapping from field names to values. *)
Record t : Type := mk { _data : dict }.

(** Modelled from the spec: [Resource.get] reads one field of the wrapped
    mapping; a field that is not there reads as [None]. *)
Definition get (self : t) (name : string) : pyval :=
  default PNone (_data self !! name).

Definition attrs (self : t) : dict := _data self.

End Resource.

(** ** Incident *)

Module Incident.

Abbreviation t := Resource.t.

(** A getter reads one field.  A setter is the assignment
    [self._data[key] = value]; it is given here as the computation that
    returns the resource as it is afterwards.  The getters of the timestamps
    go through [utils.to_datetime], which is not among the sources, and are
    left out, as is [updates], which only hands over to another manager. *)

Definition component_id (self : t) : pyval := Resource.get self "component_id".

(** [self._data['component_id'] = value] *)
Definition set_component_id (value : pyval) (self : t) : prog t :=
  Ret (Resource.mk (<["component_id" := value]> (Resource._data self))).

Definition name (self : t) : pyval := Resource.get self "name".

Definition set_name (value : pyval) (self : t) : prog t :=
  Ret (Resource.mk (<["name" := value]> (Resource._data self))).

Definition message (self : t) : pyval := Resource.get self "message".

Definition set_message (value : pyval) (self : t) : prog t :=
  Ret (Resource.mk (<["message" := value]> (Resource._data self))).

Definition notify (self : t) : pyval := Resource.get self "notify".

Definition set_notify (value : pyval) (self : t) : prog t :=
  Ret (Resource.mk (<["notify" := value]> (Resource._data self))).

Definition status (self : t) : pyval := Resource.get self "status".

Definition set_status (value : pyval) (self : t) : prog t :=
  Ret (Resource.mk (<["status" := value]> (Resource._data self))).

Definition human_status (self : t) : pyval := Resource.get self "human_status".

(** [return self.get('visible') == 1] *)
Definition visible (self : t) : pyval :=
  PBool (py_eq (Resource.get self "visible") (PInt 1)).

Definition set_visible (value : pyval) (self : t) : prog t :=
  Ret (Resource.mk (<["visible" := value]> (Resource._data self))).

Definition id (self : t) : pyval := Resource.get self "id".

End Incident.

(** ** Manager (base class) *)

Module Manager.

(** Modelled from the spec: what [list] hands back.  The base class
    [Manager] of [cachetclient/base.py] is not among the sources; its
    listing is "a lazy sequence of Resource instances" that "fetches one
    page at a time".  The sequence is kept as the entries of the fetched
    page that were not handed out yet and the page to ask for next ([None]
    once the last page was fetched). *)
Record generator : Type := mk_generator {
  g_path : string;
  g_per_page : Z;
  g_buffer : list dict;
  g_page : option Z;
}.

(** The methods that [IncidentManager] inherits and calls. *)
Class t : Type := {
  _create : string → dict → prog Resource.t;
  _update : string → Z → dict → prog Resource.t;
  _build_data_dict : list (string * pyval) → dict;
  _list_paginated : string → Z → Z → generator;
  _get : string → Z → prog Resource.t;
  _count : string → prog Z;
  _delete : string → Z → prog unit;
}.

End Manager.

(** ** IncidentManager *)

Module IncidentManager.

Definition path : string := "incidents".

(** The keyword arguments that [create] and [update] share. *)
Record kwargs : Type := mk_kwargs {
  name : pyval;
  message : pyval;
  status : pyval;
  visible : pyval;
  component_id : pyval;
  component_status : pyval;
  notify : pyval;
  created_at : pyval;
  template : pyval;
  template_vars : pyval;
}.

(** The defaults of [create]: [visible=True], [notify=True], the rest
    [None]; [name], [message] and [status] have no default. *)
Definition create_defaults (name message status : pyval) : kwargs :=
  mk_kwargs name message status (PBool true) PNone PNone (PBool true)
    PNone PNone PNone.

(** The defaults of [update]: everything [None] but [notify=True]. *)
Definition update_defaults : kwargs :=
  mk_kwargs PNone PNone PNone PNone PNone PNone (PBool true) PNone PNone PNone.

(** The dictionary literal that [create] passes on. *)
Definition create_data (kw : kwargs) : dict :=
  list_to_map [
    ("name", name kw);
    ("message", message kw);
    ("status", status kw);
    ("visible", flag (visible kw));
    ("component_id", component_id kw);
    ("component_status", component_status kw);
    ("notify", flag (notify kw));
    ("created_at", created_at kw);
    ("template", template kw);
    ("vars", template_vars kw)
  ].

(** The keyword arguments that [update] gives to [_build_data_dict]. *)
Definition update_fields (kw : kwargs) : list (string * pyval) :=
  [ ("name", name kw);
    ("message", message kw);
    ("status", status kw);
    ("visible", flag (visible kw));
    ("component_id", component_id kw);
    ("component_status", component_status kw);
    ("notify", flag (notify kw));
    ("created_at", created_at kw);
    ("template", template kw);
    ("vars", template_vars kw) ].

(** [x is None] *)
Definition is_none (v : pyval) : bool := bool_decide (v = PNone).

Section methods.
Context {M : Manager.t}.

Definition create (kw : kwargs) : prog Incident.t :=
  Manager._create path (create_data kw).

(** [extra] is [**kwargs]: accepted and not looked at. *)
Definition update (incident_id : Z) (kw : kwargs) (extra : dict)
    : prog Incident.t :=
  if is_none (name kw) || is_none (message kw)
     || is_none (status kw) || is_none (visible kw)
  then Raise (ValueError
         "name, message, status and visible are required parameters")
  else Manager._update path incident_id
         (Manager._build_data_dict (update_fields kw)).

Definition get (incident_id : Z) : prog Incident.t :=
  Manager._get path incident_id.

Definition count : prog Z :=
  Manager._count path.

Definition delete (incident_id : Z) : prog unit :=
  Manager._delete path incident_id.

(** [page] and [per_page] both default to 1. *)
Definition list (page per_page : Z) : Manager.generator :=
  Manager._list_paginated path page per_page.
End methods.

End IncidentManager.

(** ** The base manager, from the spec *)

Module Base.

(** The [HTTPError] of requests, which carries the response. *)
Definition HTTPError (rs : response) : exception :=
  mk_exception "HTTPError" "" (Some rs).

Definition KeyError (key : string) : exception :=
  mk_exception "KeyError" key None.

(** Modelled from the spec: how a response becomes an error.  This is done
    in [cachetclient/httpclient.py] and [cachetclient/base.py], which are
    not among the sources.  Where the spec and the source disagree the
    source is followed: the docstring of [IncidentManager.get] says that the
    HTTP error of requests is raised when the incident does not exist, and
    nothing in the source names the spec's [NotFoundError] or [ApiError].
    requests raises its [HTTPError] for a status from 400 to 599 and lets
    every other status through. *)
Definition checked (rs : response) : prog json :=
  if (400 <=? rs_status rs) && (rs_status rs <? 600)
  then Raise (HTTPError rs)
  else Ret (rs_json rs).

(** Modelled from the spec: "a Resource built from the response body's
    [data] object".  A body without such an object has no key to read. *)
Definition entity (j : json) : prog Resource.t :=
  match j with
  | JEntity d => Ret (Resource.mk d)
  | _ => Raise (KeyError "data")
  end.

(** [{path}/{id}] *)
Definition entity_url (path : string) (resource_id : Z) : string :=
  path +:+ "/" +:+ pretty resource_id.

(** Modelled from the spec: dropping the fields that are [None]. *)
Definition without_none (data : dict) : dict :=
  filter (λ kv, kv.2 ≠ PNone) data.

(** Modelled from the spec: "POST to resource path"; "returns a Resource
    built from the response body's [data] object".  The dictionary is sent
    as it is handed over, as by [_update]: in the source, leaving out the
    fields that are [None] is the caller's part, which [update] does through
    [_build_data_dict] and [create] does not do. *)
Definition _create (path : string) (data : dict) : prog Resource.t :=
  Call (mk_request POST path data)
       (λ rs, j ← checked rs; entity j).

(** Modelled from the spec: "PUT partial payload" to [{path}/{id}]. *)
Definition _update (path : string) (resource_id : Z) (data : dict)
    : prog Resource.t :=
  Call (mk_request PUT (entity_url path resource_id) data)
       (λ rs, j ← checked rs; entity j).

(** Modelled from the spec: the partial payload "omits None fields". *)
Definition _build_data_dict (fields : list (string * pyval)) : dict :=
  without_none (list_to_map fields).

(** Modelled from the spec: "GET [{path}/{id}]; returns Resource" or
    fails, with the error that [checked] raises. *)
Definition _get (path : string) (resource_id : Z) : prog Resource.t :=
  Call (mk_request GET (entity_url path resource_id) ∅)
       (λ rs, j ← checked rs; entity j).

(** Modelled from the spec: "DELETE; returns nothing". *)
Definition _delete (path : string) (resource_id : Z) : prog unit :=
  Call (mk_request DELETE (entity_url path resource_id) ∅)
       (λ rs, _ ← checked rs; Ret ()).

(** The request for one page of a listing. *)
Definition page_request (path : string) (page per_page : Z) : request :=
  mk_request GET path
    (list_to_map [("page", PInt page); ("per_page", PInt per_page)]).

(** Modelled from the spec: "performs a list with minimal page size and
    reads [meta.pagination.total], discarding rows".  The list is asked
    for from its first page, one entry a page. *)
Definition _count (path : string) : prog Z :=
  Call (page_request path 1 1)
       (λ rs, j ← checked rs;
              match j with
              | JPage _ meta => Ret (total meta)
              | _ => Raise (KeyError "meta")
              end).

(** Modelled from the spec: [list(page, per_page)] "produces a lazy,
    restartable-per-call sequence"; nothing is fetched when it is made. *)
Definition _list_paginated (path : string) (page per_page : Z)
    : Manager.generator :=
  Manager.mk_generator path per_page [] (Some page).

#[global] Instance manager : Manager.t := {
  Manager._create := _create;
  Manager._update := _update;
  Manager._build_data_dict := _build_data_dict;
  Manager._list_paginated := _list_paginated;
  Manager._get := _get;
  Manager._count := _count;
  Manager._delete := _delete;
}.

(** What one step of the sequence does. *)
Inductive step : Type :=
  | Yield (r : Resource.t)
  | Fetched
  | Stop.

(** Modelled from the spec: the sequence "internally fetches one page at a
    time, advancing [page] until [current_page == total_pages]", "emitting
    each page's [data] entries before requesting the next page". *)
Definition advance (g : Manager.generator) : prog (step * Manager.generator) :=
  match Manager.g_buffer g with
  | d :: rest =>
      Ret (Yield (Resource.mk d),
           Manager.mk_generator (Manager.g_path g) (Manager.g_per_page g)
             rest (Manager.g_page g))
  | [] =>
      match Manager.g_page g with
      | None => Ret (Stop, g)
      | Some page =>
          Call (page_request (Manager.g_path g) page (Manager.g_per_page g))
            (λ rs, j ← checked rs;
               match j with
               | JPage data meta =>
                   Ret (Fetched,
                        Manager.mk_generator (Manager.g_path g)
                          (Manager.g_per_page g) data
                          (if current_page meta =? total_pages meta
                           then None else Some (page + 1)))
               | _ => Raise (KeyError "meta")
               end)
      end
  end.

(** Draining the sequence, [list(generator)]: every entry it hands out, in
    order.  The loop is bounded by [fuel]; [None] says the bound was
    reached before the sequence ended. *)
Fixpoint drain (fuel : nat) (g : Manager.generator)
    : prog (option (list Resource.t)) :=
  match fuel with
  | O => Ret None
  | S fuel =>
      '(ev, g') ← advance g;
      match ev with
      | Stop => Ret (Some [])
      | Fetched => drain fuel g'
      | Yield r => l ← drain fuel g'; Ret (option_map (cons r) l)
      end
  end.

End Base.

(** ** Statements about a call *)

(** [update] has a required field that is [None]. *)
Definition missing_required (kw : IncidentManager.kwargs) : Prop :=
  IncidentManager.name kw = PNone ∨ IncidentManager.message kw = PNone ∨
  IncidentManager.status kw = PNone ∨ IncidentManager.visible kw = PNone.

(** The requests that a computation sends. *)
Definition requests {St A : Type} (handle : St → request → response * St)
    (p : prog A) (s : St) : list request :=
  (run handle p s).1.1.

(** The properties of an incident that have a setter. *)
Inductive property : Type :=
  | component_id | name | message | notify | status | visible.

Definition key (f : property) : string :=
  match f with
  | component_id => "component_id"
  | name => "name"
  | message => "message"
  | notify => "notify"
  | status => "status"
  | visible => "visible"
  end.

(** [incident.f = value] *)
Definition assign (f : property) : pyval → Incident.t → prog Incident.t :=
  match f with
  | component_id => Incident.set_component_id
  | name => Incident.set_name
  | message => Incident.set_message
  | notify => Incident.set_notify
  | status => Incident.set_status
  | visible => Incident.set_visible
  end.

(** Several assignments, one after the other. *)
Fixpoint assign_all (changes : list (property * pyval)) (self : Incident.t)
    : prog Incident.t :=
  match changes with
  | [] => Ret self
  | (f, value) :: changes => self' ← assign f value self; assign_all changes self'
  end.

(** A server that answers every request with the same response. *)
Definition constant_server (rs : response) : () → request → response * () :=
  λ s _, (rs, s).

(** ** A server that lists a collection *)

(** Modelled from the spec: the pagination envelope and its invariant.  The
    server is not part of the repository.  In its state [s] it lists the
    collection [rows] at [path], [per_page] entries a page, as the pages
    [pages]: there is at least one page, the pages taken together are the
    collection, and the request for page [i + 1] is answered 2xx with the
    entries of that page, with [total] the size of the collection,
    [current_page] the page asked for and [total_pages] the number of pages.
    Answering leaves the state as it is. *)
Record paginates {St : Type} (handle : St → request → response * St) (s : St)
    (path : string) (per_page : Z) (rows : list dict)
    (pages : list (list dict)) : Prop := {
  pages_cover : concat pages = rows;
  pages_exist : pages ≠ [];
  pages_served : ∀ (i : nat) (data : list dict),
    pages !! i = Some data →
    ∃ rs : response,
      handle s (Base.page_request path (Z.of_nat i + 1) per_page) = (rs, s)
      ∧ 200 ≤ rs_status rs < 300
      ∧ rs_json rs =
          JPage data
            (mk_pagination (Z.of_nat (length rows)) (Z.of_nat (length data))
               per_page (Z.of_nat i + 1) (Z.of_nat (length pages)));
}.

(** The entries of one page of a collection. *)
Definition page_of (rows : list dict) (page per_page : Z) : list dict :=
  take (Z.to_nat per_page) (drop (Z.to_nat ((page - 1) * per_page)) rows).

(** The number of pages of a collection; an empty collection has one. *)
Definition pages_of (size per_page : Z) : Z :=
  Z.max 1 ((size + per_page - 1) / per_page).

(** A server that holds the collection [rows] and does nothing but list it
    page by page. *)
Definition listing_server (rows : list dict) : () → request → response * () :=
  λ s rq,
    match rq_verb rq, rq_payload rq !! "page", rq_payload rq !! "per_page" with
    | GET, Some (PInt page), Some (PInt per_page) =>
        (mk_response 200
           (JPage (page_of rows page per_page)
              (mk_pagination (Z.of_nat (length rows))
                 (Z.of_nat (length (page_of rows page per_page)))
                 per_page page
                 (pages_of (Z.of_nat (length rows)) per_page))), s)
    | _, _, _ => (mk_response 404 (JOther PNone), s)
    end.

(** The pages of a collection, [per_page] entries a page. *)
Definition pages_for (rows : list dict) (per_page : Z) : list (list dict) :=
  (λ i : nat, page_of rows (Z.of_nat i + 1) per_page)
    <$> seq 0 (Z.to_nat (pages_of (Z.of_nat (length rows)) per_page)).

(** Three incidents, as a server would hold them. *)
Definition sample_rows : list dict :=
  [ list_to_map [("id", PInt 1); ("name", PStr "Database down");
                 ("visible", PInt 1)];
    list_to_map [("id", PInt 2); ("name", PStr "Slow responses");
                 ("visible", PInt 0)];
    list_to_map [("id", PInt 3); ("name", PStr "Maintenance");
                 ("visible", PInt 1)] ].

(** ** Calling create and update *)

(** How a call binds its arguments to the parameters of [create] and
    [update], as Python does it from the two signatures.  A call that does
    not fit the signature raises [TypeError] before the body runs; the
    message is composed by the interpreter and is not kept. *)
Module Calls.

Definition TypeError : exception := mk_exception "TypeError" "" None.

(** The parameters of [create] and [update] after [self] and
    [incident_id]. *)
Definition params : list string :=
  [ "name"; "message"; "status"; "visible"; "component_id";
    "component_status"; "notify"; "created_at"; "template"; "template_vars" ].

(** [create] gives no default to these. *)
Definition required : list string := [ "name"; "message"; "status" ].

(** The value of a parameter that can be given by keyword only. *)
Definition by_keyword (keywords : dict) (p : string) (dflt : pyval) : pyval :=
  default dflt (keywords !! p).

(** [create(self, *, name, message, status, visible=True, ...)]: every
    parameter is keyword-only, there is no [**kwargs]. *)
Definition bind_create (args : list pyval) (keywords : dict)
    : option IncidentManager.kwargs :=
  if bool_decide (args = [])
     && bool_decide (map_Forall (λ k _, k ∈ params) keywords)
     && bool_decide (Forall (λ p, is_Some (keywords !! p)) required)
  then Some (IncidentManager.mk_kwargs
               (by_keyword keywords "name" PNone)
               (by_keyword keywords "message" PNone)
               (by_keyword keywords "status" PNone)
               (by_keyword keywords "visible" (PBool true))
               (by_keyword keywords "component_id" PNone)
               (by_keyword keywords "component_status" PNone)
               (by_keyword keywords "notify" (PBool true))
               (by_keyword keywords "created_at" PNone)
               (by_keyword keywords "template" PNone)
               (by_keyword keywords "template_vars" PNone))
  else None.

(** The value of the [i]-th parameter after [incident_id]: the positional
    argument at that place if there is one, else the keyword, else the
    default. *)
Definition by_position (args : list pyval) (keywords : dict) (i : nat)
    (p : string) (dflt : pyval) : pyval :=
  match args !! i with
  | Some v => v
  | None => by_keyword keywords p dflt
  end.

(** [update(self, incident_id, name=None, ..., notify=True, ..., **kwargs)]
    called on a manager with [incident_id] and the further positional
    arguments [args]: at most ten of these, no parameter given twice ([self]
    and [incident_id] are given already), and the keywords that name no
    parameter are collected in [**kwargs]. *)
Definition bind_update (args : list pyval) (keywords : dict)
    : option (IncidentManager.kwargs * dict) :=
  if bool_decide (length args ≤ 10)%nat
     && bool_decide (keywords !! "self" = None
                     ∧ keywords !! "incident_id" = None)
     && bool_decide (Forall (λ p, keywords !! p = None)
                       (take (length args) params))
  then Some (IncidentManager.mk_kwargs
               (by_position args keywords 0 "name" PNone)
               (by_position args keywords 1 "message" PNone)
               (by_position args keywords 2 "status" PNone)
               (by_position args keywords 3 "visible" PNone)
               (by_position args keywords 4 "component_id" PNone)
               (by_position args keywords 5 "component_status" PNone)
               (by_position args keywords 6 "notify" (PBool true))
               (by_position args keywords 7 "created_at" PNone)
               (by_position args keywords 8 "template" PNone)
               (by_position args keywords 9 "template_vars" PNone),
             filter (λ kv, kv.1 ∉ params) keywords)
  else None.

Section calls.
Context {M : Manager.t}.

(** A call of [create] with the positional arguments [args] and the
    keywords [keywords]. *)
Definition create (args : list pyval) (keywords : dict) : prog Incident.t :=
  match bind_create args keywords with
  | Some kw => IncidentManager.create kw
  | None => Raise TypeError
  end.

(** A call of [update] with [incident_id], the further positional
    arguments [args] and the keywords [keywords]. *)
Definition update (incident_id : Z) (args : list pyval) (keywords : dict)
    : prog Incident.t :=
  match bind_update args keywords with
  | Some (kw, extra) => IncidentManager.update incident_id kw extra
  | None => Raise TypeError
  end.
End calls.

End Calls.

(** ** Reading a property *)

#[global] Instance property_eq_dec : EqDecision property.
Proof. solve_decision. Defined.

(** [incident.f] *)
Definition read (f : property) : Incident.t → pyval :=
  match f with
  | component_id => Incident.component_id
  | name => Incident.name
  | message => Incident.message
  | notify => Incident.notify
  | status => Incident.status
  | visible => Incident.visible
  end.

(** ** The live run *)

(** [extras/live_run.py].  What the script takes from elsewhere is left
    open: the two constants of [enums], the incident manager that
    [client().incidents] comes to (building the client may itself fail or
    talk to the server), [issue.delete()] of the base class, and the tests
    of the other resources, which only use managers that are not among the
    sources.  Such a test need not come to an end ([test_subscribers] drains
    a listing), so it is given with a bound on its loops, and [None] says
    that the bound was reached before the test ended.  Printing is left
    out. *)
Module live_run.

Section script.
Context (INCIDENT_INVESTIGATING COMPONENT_STATUS_MAJOR_OUTAGE : pyval).
Context (incidents : prog Manager.t).
Context (resource_delete : Manager.t → Incident.t → prog unit).
Context (test_ping test_version test_components test_component_groups
         test_subscribers : nat → prog (option unit)).

Definition test_incidents : prog unit :=
  m ← incidents;
  issue ← Calls.create (M := m)
             [ PStr "Something blew up!"; PStr "We are looking into it";
               INCIDENT_INVESTIGATING ]
             (list_to_map
                [ ("visible", PBool true); ("component_id", PInt 1);
                  ("component_status", COMPONENT_STATUS_MAJOR_OUTAGE) ]);
  resource_delete m issue.





End script.

End live_run.

(** * Theorems *)

(** ** Running computations *)

Section run_facts.
Context {St : Type} (handle : St → request → response * St).

Lemma run_silent {A : Type} (p : prog A) (s : St) :
  silent p = true → (run handle p s).1.1 = [] ∧ (run handle p s).2 = s.
Proof. destruct p; simpl; intros; done. Qed.

Lemma run_call {A : Type} (rq : request) (k : response → prog A) (s : St) :
  run handle (Call rq k) s =
    (rq :: (run handle (k (handle s rq).1) (handle s rq).2).1.1,
     (run handle (k (handle s rq).1) (handle s rq).2).1.2,
     (run handle (k (handle s rq).1) (handle s rq).2).2).
Proof.
  simpl. destruct (handle s rq) as [rs s']. simpl.
  by destruct (run handle (k rs) s') as [[sent o] s''].
Qed.
End run_facts.

(** ** update: the required fields *)

Section update_required.
Context {M : Manager.t}.

Lemma update_checks_first (incident_id : Z) (kw : IncidentManager.kwargs)
    (extra : dict) :
  missing_required kw →
  IncidentManager.update incident_id kw extra =
    Raise (ValueError
      "name, message, status and visible are required parameters").
Proof.
  intros Hmiss. unfold IncidentManager.update, IncidentManager.is_none.
  destruct Hmiss as [-> | [-> | [-> | ->]]]; simpl;
    repeat (case_bool_decide; simpl); done.
Qed.
End update_required.

(** C1, as amended.  When one of [name], [message], [status], [visible] is
    [None], [update] raises the built-in [ValueError] with its fixed message
    before it reaches the manager's [_update]: whatever the inherited methods
    do and whatever the server is, no request is sent and the server is left
    as it was. *)
Theorem update_missing_required_raises_ValueError
    {M : Manager.t} {St : Type} (handle : St → request → response * St) (s : St)
    (incident_id : Z) (kw : IncidentManager.kwargs) (extra : dict) :
  missing_required kw →
  run handle (IncidentManager.update incident_id kw extra) s =
    ([], Raised (ValueError
           "name, message, status and visible are required parameters"), s).
Proof.
  intros Hmiss. by rewrite update_checks_first.
Qed.

Lemma update_missing_required_raises_ValueError_witness :
  missing_required IncidentManager.update_defaults ∧
  run (constant_server (mk_response 200 (JEntity ∅)))
      (IncidentManager.update (M := Base.manager) 7
         IncidentManager.update_defaults ∅) () =
    ([], Raised (ValueError
           "name, message, status and visible are required parameters"), ()).
Proof.
  split.
  - left. reflexivity.
  - apply (update_missing_required_raises_ValueError (M := Base.manager)).
    left. reflexivity.
Defined.

(** C1, as the claim has it, fails: the exception that [update] raises for a
    missing required field is a [ValueError], not a [ValidationError]. *)
Lemma update_missing_required_not_ValidationError :
  missing_required IncidentManager.update_defaults ∧
  ¬ ∃ e, IncidentManager.update (M := Base.manager) 7
           IncidentManager.update_defaults ∅ = Raise e
         ∧ exc_class e = "ValidationError".
Proof.
  split.
  - left. reflexivity.
  - intros (e & Hraise & Hclass).
    rewrite update_checks_first in Hraise by (left; reflexivity).
    injection Hraise as <-. discriminate Hclass.
Qed.

(** ** Booleans on the wire and in the getters *)

Lemma flag_of_bool (b : bool) : flag (PBool b) = PInt (if b then 1 else 0).
Proof. reflexivity. Qed.

Lemma flag_zero_or_one (x : pyval) : flag x = PInt 0 ∨ flag x = PInt 1.
Proof. unfold flag. destruct (truthy x); auto. Qed.

Lemma flag_not_none (x : pyval) : flag x ≠ PNone.
Proof. discriminate. Qed.

(** What [create] passes on has [visible] and [notify] as 1 or 0. *)
Lemma create_data_flags (kw : IncidentManager.kwargs) :
  IncidentManager.create_data kw !! "visible" =
    Some (flag (IncidentManager.visible kw)) ∧
  IncidentManager.create_data kw !! "notify" =
    Some (flag (IncidentManager.notify kw)).
Proof. split; reflexivity. Qed.

(** So has what [update] gives to [_build_data_dict]. *)
Lemma update_fields_flags (kw : IncidentManager.kwargs) :
  ("visible", flag (IncidentManager.visible kw)) ∈ IncidentManager.update_fields kw ∧
  ("notify", flag (IncidentManager.notify kw)) ∈ IncidentManager.update_fields kw.
Proof. unfold IncidentManager.update_fields. split; set_solver. Qed.

(** The getter of [visible] always answers with a boolean. *)
Lemma visible_is_bool (self : Incident.t) :
  is_bool (Incident.visible self) = true.
Proof. reflexivity. Qed.

(** The getter of [notify] hands out what is stored, as it is. *)
Lemma notify_is_stored (self : Incident.t) :
  Incident.notify self = default PNone (Resource._data self !! "notify").
Proof. reflexivity. Qed.

(** C2.  An incident as it comes from the wire, with its booleans as 0/1:
    the getter of [notify] returns the integer 1, not a boolean, while the
    getter of [visible] converts. *)
Theorem notify_getter_returns_wire_integer :
  Incident.notify
    (Resource.mk (list_to_map [("id", PInt 1); ("visible", PInt 1);
                               ("notify", PInt 1)])) = PInt 1
  ∧ is_bool (Incident.notify
      (Resource.mk (list_to_map [("id", PInt 1); ("visible", PInt 1);
                                 ("notify", PInt 1)]))) = false
  ∧ Incident.visible
      (Resource.mk (list_to_map [("id", PInt 1); ("visible", PInt 1);
                                 ("notify", PInt 1)])) = PBool true.
Proof. repeat split. Qed.

(** ** The getter of [visible] *)

Lemma visible_spec (self : Incident.t) :
  Incident.visible self = PBool (py_eq (Resource.get self "visible") (PInt 1)).
Proof. reflexivity. Qed.

Lemma number_eq_int (z : Z) :
  number_eq (Finite z 0) (Finite 1 0) = (z =? 1).
Proof.
  unfold number_eq. change (0 - Z.min 0 0) with 0.
  change (2 ^ 0) with 1. by rewrite !Z.mul_1_r.
Qed.

Lemma number_eq_float_one (negative : bool) (m : positive) (e : Z) :
  number_eq (Finite (if negative then Z.neg m else Z.pos m) e) (Finite 1 0)
    = true
  ↔ negative = false ∧ e ≤ 0 ∧ Z.pos m = 2 ^ (- e).
Proof.
  unfold number_eq. rewrite Z.eqb_eq, Z.mul_1_l.
  destruct (Z.min_spec e 0) as [[He ->] | [He ->]].
  - replace (e - e) with 0 by lia. change (2 ^ 0) with 1.
    rewrite Z.mul_1_r, Z.sub_0_l.
    assert (0 < 2 ^ (- e)) by (apply Z.pow_pos_nonneg; lia).
    destruct negative; split.
    + intros Hm. lia.
    + intros (? & _). discriminate.
    + intros Hm. repeat split; [lia | done].
    + by intros (_ & _ & ?).
  - change (0 - 0) with 0. change (2 ^ 0) with 1. rewrite Z.sub_0_r.
    assert (0 < 2 ^ e) by (apply Z.pow_pos_nonneg; lia).
    destruct negative; split.
    + intros Hm. nia.
    + intros (? & _). discriminate.
    + intros Hm.
      destruct (decide (e = 0)) as [-> | Hne].
      * change (2 ^ 0) with 1 in Hm. rewrite Z.mul_1_r in Hm.
        repeat split; [lia | exact Hm].
      * assert (1 < 2 ^ e) by (apply Z.pow_gt_1; lia). nia.
    + intros (_ & Hle & Hm). assert (e = 0) as -> by lia.
      change (2 ^ 0) with 1. change (2 ^ (- 0)) with 1 in Hm. lia.
Qed.

Lemma py_eq_one (v : pyval) :
  py_eq v (PInt 1) = true ↔
    v = PInt 1 ∨ v = PBool true
    ∨ ∃ (m : positive) (e : Z),
        v = PFloat (S754_finite false m e) ∧ e ≤ 0 ∧ Z.pos m = 2 ^ (- e).
Proof.
  destruct v as [ | [] | z | [s | s | | s m e] | | | ]; unfold py_eq;
    cbn [as_number].
  all: try (split; [discriminate
                   | intros [? | [? | (? & ? & ? & _)]]; discriminate]).
  - split; auto.
  - rewrite number_eq_int, Z.eqb_eq. split.
    + intros ->. auto.
    + intros [? | [? | (? & ? & ? & _)]]; [congruence | discriminate..].
  - rewrite number_eq_float_one. split.
    + intros (-> & Hle & Hm). right. right. by exists m, e.
    + intros [? | [? | (m' & e' & [= -> -> ->] & Hle & Hm)]];
        [discriminate.. | done].
Qed.

(** C3, as amended.  The getter of [visible] compares the stored value with
    the integer 1 by [==] and always answers with a boolean: [True] exactly
    when the stored value is equal to 1, which among [None], booleans,
    integers, floats, strings, lists of strings and datetimes are the
    integer 1, the boolean [True] and the float 1.0; [False] for everything
    else, the strings "0" and "1" and a missing or null value among them; it
    never answers [None]. *)
Theorem visible_getter_compares_with_one (self : Incident.t) :
  (Incident.visible self = PBool true ∨ Incident.visible self = PBool false)
  ∧ (Incident.visible self = PBool true ↔
       Resource.get self "visible" = PInt 1 ∨
       Resource.get self "visible" = PBool true ∨
       ∃ (m : positive) (e : Z),
         Resource.get self "visible" = PFloat (S754_finite false m e)
         ∧ e ≤ 0 ∧ Z.pos m = 2 ^ (- e))
  ∧ Incident.visible self ≠ PNone
  ∧ Incident.visible (Resource.mk {[ "visible" := PInt 1 ]}) = PBool true
  ∧ Incident.visible (Resource.mk {[ "visible" := PInt 0 ]}) = PBool false
  ∧ Incident.visible
      (Resource.mk {[ "visible" :=
         PFloat (S754_finite false 4503599627370496 (-52)) ]}) = PBool true
  ∧ Incident.visible
      (Resource.mk {[ "visible" := PFloat (S754_zero false) ]}) = PBool false
  ∧ Incident.visible (Resource.mk {[ "visible" := PStr "1" ]}) = PBool false
  ∧ Incident.visible (Resource.mk {[ "visible" := PStr "0" ]}) = PBool false
  ∧ Incident.visible (Resource.mk {[ "visible" := PNone ]}) = PBool false
  ∧ Incident.visible (Resource.mk ∅) = PBool false.
Proof.
  split; [|split; [|split; [done|repeat split]]].
  - rewrite visible_spec. destruct (py_eq _ _); auto.
  - rewrite visible_spec, <- py_eq_one. split; [by intros [= ->] | by intros ->].
Qed.

(** C3, as the claim has it, fails twice: a stored string "1" reads as
    [False], not [True], and a stored null reads as [False], not [None]. *)
Lemma visible_getter_string_one_and_null :
  Resource.get (Resource.mk {[ "visible" := PStr "1" ]}) "visible" = PStr "1"
  ∧ Incident.visible (Resource.mk {[ "visible" := PStr "1" ]}) ≠ PBool true
  ∧ Resource.get (Resource.mk {[ "visible" := PNone ]}) "visible" = PNone
  ∧ Incident.visible (Resource.mk {[ "visible" := PNone ]}) ≠ PNone.
Proof. repeat split; discriminate. Qed.

(** ** Setters *)

Lemma assign_spec (f : property) (value : pyval) (self : Incident.t) :
  assign f value self =
    Ret (Resource.mk (<[key f := value]> (Resource._data self))).
Proof. by destruct f. Qed.

Lemma assign_all_silent (changes : list (property * pyval)) (self : Incident.t) :
  ∃ self', assign_all changes self = Ret self'.
Proof.
  revert self. induction changes as [|[f value] changes IH]; intros self; simpl.
  - by eexists.
  - rewrite assign_spec. simpl. apply IH.
Qed.

(** C7.  A setter writes its own key of the local mapping and nothing else:
    the value stored under every other key is what it was, no request is
    sent and the server is left as it was.  The same holds for any number of
    assignments in a row: nothing reaches the server before a method of the
    manager is called. *)
Theorem setters_stage_locally {St : Type} (handle : St → request → response * St)
    (s : St) (f : property) (value : pyval) (self : Incident.t) :
  (∃ self',
     run handle (assign f value self) s = ([], Returned self', s)
     ∧ ∀ k, Resource._data self' !! k =
            if decide (k = key f) then Some value else Resource._data self !! k)
  ∧ ∀ changes, ∃ self',
      run handle (assign_all changes self) s = ([], Returned self', s).
Proof.
  split.
  - eexists. rewrite assign_spec. split; [reflexivity|].
    intros k. simpl. case_decide as Hk.
    + subst k. apply lookup_insert_eq.
    + by apply lookup_insert_ne.
  - intros changes. destruct (assign_all_silent changes self) as [self' ->].
    by exists self'.
Qed.

(** C10.  Assigning a boolean to [visible] and reading [visible] back gives
    that boolean: the setter stores it as it is, and a stored [True] is equal
    to the integer 1 that the getter compares with, a stored [False] is
    not. *)
Theorem visible_set_then_get (b : bool) (self : Incident.t) :
  (self' ← Incident.set_visible (PBool b) self; Ret (Incident.visible self'))
    = Ret (PBool b).
Proof.
  simpl. unfold Incident.visible, Resource.get. simpl.
  rewrite lookup_insert_eq. simpl. by destruct b.
Qed.

(** ** The base manager: one request a call *)

Lemma without_none_lookup (data : dict) (k : string) :
  Base.without_none data !! k =
    match data !! k with
    | Some v => if IncidentManager.is_none v then None else Some v
    | None => None
    end.
Proof.
  unfold Base.without_none, IncidentManager.is_none.
  rewrite map_lookup_filter. destruct (data !! k) as [v|]; simpl; [|done].
  case_guard; case_bool_decide; simpl in *; done.
Qed.

Lemma without_none_Some (data : dict) (k : string) (v : pyval) :
  Base.without_none data !! k = Some v ↔ data !! k = Some v ∧ v ≠ PNone.
Proof. unfold Base.without_none. by rewrite map_lookup_filter_Some. Qed.

Lemma without_none_no_null (data : dict) (k : string) :
  Base.without_none data !! k ≠ Some PNone.
Proof. rewrite without_none_Some. by intros [_ ?]. Qed.

Lemma checked_pass (rs : response) :
  ¬ 400 ≤ rs_status rs < 600 → Base.checked rs = Ret (rs_json rs).
Proof.
  intros H. unfold Base.checked.
  replace ((400 <=? rs_status rs) && (rs_status rs <? 600)) with false;
    [done|].
  symmetry. apply andb_false_iff. lia.
Qed.

Lemma checked_ok (rs : response) :
  200 ≤ rs_status rs < 300 → Base.checked rs = Ret (rs_json rs).
Proof. intros H. apply checked_pass. lia. Qed.

Lemma checked_http_error (rs : response) :
  400 ≤ rs_status rs < 600 → Base.checked rs = Raise (Base.HTTPError rs).
Proof.
  intros H. unfold Base.checked.
  replace ((400 <=? rs_status rs) && (rs_status rs <? 600)) with true;
    [done|].
  symmetry. apply andb_true_iff. lia.
Qed.

Lemma checked_silent (rs : response) : silent (Base.checked rs) = true.
Proof. unfold Base.checked. by destruct (_ && _). Qed.

Lemma checked_entity_silent (rs : response) :
  silent (j ← Base.checked rs; Base.entity j) = true.
Proof.
  unfold Base.checked.
  destruct (_ && _); simpl; [done|]. by destruct (rs_json rs).
Qed.

Section one_request.
Context {St : Type} (handle : St → request → response * St).

Lemma requests_call {A : Type} (rq : request) (k : response → prog A) (s : St) :
  (∀ rs, silent (k rs) = true) →
  requests handle (Call rq k) s = [rq].
Proof.
  intros Hk. unfold requests. rewrite run_call. simpl.
  by rewrite (proj1 (run_silent handle _ _ (Hk _))).
Qed.

Lemma run_call_silent {A : Type} (rq : request) (k : response → prog A)
    (s s' : St) (rs : response) (o : outcome A) :
  handle s rq = (rs, s') →
  run handle (k rs) s' = ([], o, s') →
  run handle (Call rq k) s = ([rq], o, s').
Proof. intros Hrq Hk. simpl. by rewrite Hrq, Hk. Qed.
End one_request.

(** ** create *)

(** The dictionary that [create] builds has a key for every parameter,
    whatever its value is. *)
Lemma create_data_optional (kw : IncidentManager.kwargs) :
  IncidentManager.create_data kw !! "component_id" =
    Some (IncidentManager.component_id kw)
  ∧ IncidentManager.create_data kw !! "component_status" =
      Some (IncidentManager.component_status kw)
  ∧ IncidentManager.create_data kw !! "created_at" =
      Some (IncidentManager.created_at kw)
  ∧ IncidentManager.create_data kw !! "template" =
      Some (IncidentManager.template kw)
  ∧ IncidentManager.create_data kw !! "vars" =
      Some (IncidentManager.template_vars kw).
Proof. repeat split. Qed.

(** What [create] sends: one POST to [incidents] with the dictionary it
    builds, as it is. *)
Lemma create_requests {St : Type} (handle : St → request → response * St)
    (s : St) (kw : IncidentManager.kwargs) :
  requests handle (IncidentManager.create (M := Base.manager) kw) s =
    [mk_request POST "incidents" (IncidentManager.create_data kw)].
Proof. apply requests_call, checked_entity_silent. Qed.

(** C4.  The call [create(name='Outage', message='Looking into it',
    status=1)] leaves [component_id], [component_status], [created_at],
    [template] and [vars] at [None].  [create] hands [_create] a dictionary
    that has these five keys, with the value [None], whatever the manager
    is, and the POST to [incidents] carries them; the body is not one of
    non-null fields only.  [update] drops such fields before it hands its
    dictionary on. *)
Theorem create_posts_null_fields {M : Manager.t} {St : Type}
    (handle : St → request → response * St) (s : St) :
  IncidentManager.create (M := M)
    (IncidentManager.create_defaults
       (PStr "Outage") (PStr "Looking into it") (PInt 1)) =
    Manager._create "incidents"
      (IncidentManager.create_data
         (IncidentManager.create_defaults
            (PStr "Outage") (PStr "Looking into it") (PInt 1)))
  ∧ (∃ payload : dict,
       requests handle
         (IncidentManager.create (M := Base.manager)
            (IncidentManager.create_defaults
               (PStr "Outage") (PStr "Looking into it") (PInt 1))) s =
         [mk_request POST "incidents" payload]
       ∧ payload !! "component_id" = Some PNone
       ∧ payload !! "component_status" = Some PNone
       ∧ payload !! "created_at" = Some PNone
       ∧ payload !! "template" = Some PNone
       ∧ payload !! "vars" = Some PNone)
  ∧ Base._build_data_dict
      (IncidentManager.update_fields
         (IncidentManager.create_defaults
            (PStr "Outage") (PStr "Looking into it") (PInt 1)))
      !! "template" = None.
Proof.
  split; [reflexivity|]. split.
  - eexists. split; [apply create_requests|]. repeat split.
  - reflexivity.
Qed.

(** ** update *)

Lemma update_fields_NoDup (kw : IncidentManager.kwargs) :
  NoDup (IncidentManager.update_fields kw).*1.
Proof. simpl. by apply (bool_decide_unpack _). Qed.

Lemma update_valid (incident_id : Z) (kw : IncidentManager.kwargs)
    (extra : dict) :
  ¬ missing_required kw →
  IncidentManager.update (M := Base.manager) incident_id kw extra =
    Base._update "incidents" incident_id
      (Base._build_data_dict (IncidentManager.update_fields kw)).
Proof.
  intros Hok. unfold IncidentManager.update, IncidentManager.is_none.
  repeat case_bool_decide; simpl; try reflexivity;
    exfalso; apply Hok; unfold missing_required; auto.
Qed.

(** C5.  A call of [update] with its four required fields sends one
    request, a PUT to [incidents/{id}], and its body is partial: it holds
    the keyword arguments whose value is not [None] and nothing else.  Each
    of [component_id], [component_status], [created_at], [template] and
    [vars] is left out when its argument is [None] and sent as it is
    otherwise. *)
Theorem update_puts_partial_payload {St : Type}
    (handle : St → request → response * St) (s : St)
    (incident_id : Z) (kw : IncidentManager.kwargs) (extra : dict) :
  ¬ missing_required kw →
  ∃ payload : dict,
    requests handle
      (IncidentManager.update (M := Base.manager) incident_id kw extra) s =
      [mk_request PUT ("incidents/" +:+ pretty incident_id) payload]
    ∧ (∀ k, payload !! k ≠ Some PNone)
    ∧ (∀ k v, payload !! k = Some v ↔
                (k, v) ∈ IncidentManager.update_fields kw ∧ v ≠ PNone)
    ∧ payload !! "component_id" =
        (if IncidentManager.is_none (IncidentManager.component_id kw)
         then None else Some (IncidentManager.component_id kw))
    ∧ payload !! "component_status" =
        (if IncidentManager.is_none (IncidentManager.component_status kw)
         then None else Some (IncidentManager.component_status kw))
    ∧ payload !! "created_at" =
        (if IncidentManager.is_none (IncidentManager.created_at kw)
         then None else Some (IncidentManager.created_at kw))
    ∧ payload !! "template" =
        (if IncidentManager.is_none (IncidentManager.template kw)
         then None else Some (IncidentManager.template kw))
    ∧ payload !! "vars" =
        (if IncidentManager.is_none (IncidentManager.template_vars kw)
         then None else Some (IncidentManager.template_vars kw)).
Proof.
  intros Hok. rewrite update_valid by done.
  exists (Base._build_data_dict (IncidentManager.update_fields kw)).
  unfold Base._build_data_dict. split; [|split; [|split]].
  - apply requests_call, checked_entity_silent.
  - apply without_none_no_null.
  - intros k v. rewrite without_none_Some.
    by rewrite <- (elem_of_list_to_map _ _ _ (update_fields_NoDup kw)).
  - repeat split; by rewrite without_none_lookup.
Qed.

Lemma update_puts_partial_payload_witness :
  ¬ missing_required
      (IncidentManager.mk_kwargs (PStr "Outage") (PStr "Looking into it")
         (PInt 1) (PBool false) (PInt 3) PNone (PBool true) PNone PNone PNone)
  ∧ ∃ payload : dict,
      requests (constant_server (mk_response 200 (JEntity ∅)))
        (IncidentManager.update (M := Base.manager) 7
           (IncidentManager.mk_kwargs (PStr "Outage") (PStr "Looking into it")
              (PInt 1) (PBool false) (PInt 3) PNone (PBool true)
              PNone PNone PNone) ∅) () =
        [mk_request PUT "incidents/7" payload]
      ∧ payload !! "component_id" = Some (PInt 3)
      ∧ payload !! "component_status" = None
      ∧ payload !! "created_at" = None
      ∧ payload !! "template" = None
      ∧ payload !! "vars" = None.
Proof.
  assert (Hok : ¬ missing_required
      (IncidentManager.mk_kwargs (PStr "Outage") (PStr "Looking into it")
         (PInt 1) (PBool false) (PInt 3) PNone (PBool true) PNone PNone PNone)).
  { intros [H | [H | [H | H]]]; discriminate H. }
  split; [exact Hok|].
  destruct (update_puts_partial_payload
              (constant_server (mk_response 200 (JEntity ∅))) () 7 _ ∅ Hok)
    as (payload & Hsent & _ & _ & H1 & H2 & H3 & H4 & H5).
  exists payload. repeat split; assumption.
Defined.

(** C9.  A call of [update] with its four required fields always has
    [notify] in the body of its PUT, as 1 or 0: the value is [1 if notify
    else 0], which is never [None] and so is never left out.  With [notify]
    at its default, [True], the body has [notify = 1]. *)
Theorem update_always_sends_notify {St : Type}
    (handle : St → request → response * St) (s : St)
    (incident_id : Z) (kw : IncidentManager.kwargs) (extra : dict) :
  ¬ missing_required kw →
  ∃ payload : dict,
    requests handle
      (IncidentManager.update (M := Base.manager) incident_id kw extra) s =
      [mk_request PUT ("incidents/" +:+ pretty incident_id) payload]
    ∧ payload !! "notify" =
        Some (PInt (if truthy (IncidentManager.notify kw) then 1 else 0))
    ∧ (payload !! "notify" = Some (PInt 1) ∨ payload !! "notify" = Some (PInt 0))
    ∧ (IncidentManager.notify kw =
         IncidentManager.notify IncidentManager.update_defaults →
       payload !! "notify" = Some (PInt 1)).
Proof.
  intros Hok. rewrite update_valid by done.
  exists (Base._build_data_dict (IncidentManager.update_fields kw)).
  assert (Hnotify :
    Base._build_data_dict (IncidentManager.update_fields kw) !! "notify" =
      Some (PInt (if truthy (IncidentManager.notify kw) then 1 else 0))).
  { unfold Base._build_data_dict. by rewrite without_none_lookup. }
  split; [|split; [|split]].
  - apply requests_call, checked_entity_silent.
  - exact Hnotify.
  - rewrite Hnotify. destruct (truthy _); auto.
  - intros Hdefault. by rewrite Hnotify, Hdefault.
Qed.

Lemma update_always_sends_notify_witness :
  ¬ missing_required
      (IncidentManager.mk_kwargs (PStr "Outage") (PStr "Fixed") (PInt 4)
         (PBool true) PNone PNone (PBool true) PNone PNone PNone)
  ∧ ∃ payload : dict,
      requests (constant_server (mk_response 200 (JEntity ∅)))
        (IncidentManager.update (M := Base.manager) 12
           (IncidentManager.mk_kwargs (PStr "Outage") (PStr "Fixed") (PInt 4)
              (PBool true) PNone PNone (PBool true) PNone PNone PNone) ∅) () =
        [mk_request PUT "incidents/12" payload]
      ∧ payload !! "notify" = Some (PInt 1).
Proof.
  assert (Hok : ¬ missing_required
      (IncidentManager.mk_kwargs (PStr "Outage") (PStr "Fixed") (PInt 4)
         (PBool true) PNone PNone (PBool true) PNone PNone PNone)).
  { intros [H | [H | [H | H]]]; discriminate H. }
  split; [exact Hok|].
  destruct (update_always_sends_notify
              (constant_server (mk_response 200 (JEntity ∅))) () 12 _ ∅ Hok)
    as (payload & Hsent & Hnotify & _ & _).
  exists payload. split; assumption.
Defined.

(** ** get *)

(** C6, as amended.  [get] sends one request, a GET on [incidents/{id}].
    When the server answers 404, as for any status from 400 to 599, the
    call fails with the [HTTPError] of requests, which carries the
    response.  When it answers with another status and an entity under
    [data], the call returns the incident made of it; a body without an
    entity fails with [KeyError]. *)
Theorem get_returns_incident_or_http_error {St : Type}
    (handle : St → request → response * St) (s s' : St)
    (incident_id : Z) (rs : response) :
  handle s (mk_request GET ("incidents/" +:+ pretty incident_id) ∅) = (rs, s') →
  ∃ o : outcome Incident.t,
    run handle (IncidentManager.get (M := Base.manager) incident_id) s =
      ([mk_request GET ("incidents/" +:+ pretty incident_id) ∅], o, s')
    ∧ ((400 ≤ rs_status rs < 600 ∧ o = Raised (Base.HTTPError rs))
       ∨ (¬ 400 ≤ rs_status rs < 600 ∧
          ∃ d, rs_json rs = JEntity d ∧ o = Returned (Resource.mk d))
       ∨ (¬ 400 ≤ rs_status rs < 600 ∧ (∀ d, rs_json rs ≠ JEntity d) ∧
          o = Raised (Base.KeyError "data")))
    ∧ (rs_status rs = 404 → o = Raised (Base.HTTPError rs)).
Proof.
  intros Hrs.
  unfold IncidentManager.get, Manager._get, Base.manager, Base._get,
    IncidentManager.path, Base.entity_url.
  destruct (decide (400 ≤ rs_status rs < 600)) as [Herr | Hpass];
    [|destruct (rs_json rs) as [d | data meta | v] eqn:Hjson].
  - exists (Raised (Base.HTTPError rs)). split; [|by auto].
    apply (run_call_silent handle _ _ _ _ _ _ Hrs).
    by rewrite checked_http_error.
  - exists (Returned (Resource.mk d)). split; [|split; [by eauto 6 | lia]].
    apply (run_call_silent handle _ _ _ _ _ _ Hrs).
    by rewrite checked_pass, Hjson.
  - exists (Raised (Base.KeyError "data")).
    split; [|split; [by auto 6 | lia]].
    apply (run_call_silent handle _ _ _ _ _ _ Hrs).
    by rewrite checked_pass, Hjson.
  - exists (Raised (Base.KeyError "data")).
    split; [|split; [by auto 6 | lia]].
    apply (run_call_silent handle _ _ _ _ _ _ Hrs).
    by rewrite checked_pass, Hjson.
Qed.

Lemma get_returns_incident_or_http_error_witness :
  constant_server (mk_response 404 (JOther PNone)) ()
    (mk_request GET ("incidents/" +:+ pretty 5) ∅) =
    (mk_response 404 (JOther PNone), ())
  ∧ run (constant_server (mk_response 404 (JOther PNone)))
        (IncidentManager.get (M := Base.manager) 5) () =
      ([mk_request GET "incidents/5" ∅],
       Raised (Base.HTTPError (mk_response 404 (JOther PNone))), ()).
Proof.
  split; [reflexivity|].
  destruct (get_returns_incident_or_http_error
              (constant_server (mk_response 404 (JOther PNone))) () () 5
              (mk_response 404 (JOther PNone)) eq_refl)
    as (o & Hrun & _ & H404).
  rewrite Hrun. by rewrite (H404 eq_refl).
Defined.

(** C6, as the claim has it, fails: when the server answers 404, what [get]
    raises is the [HTTPError] of requests, not a [NotFoundError]. *)
Lemma get_404_not_NotFoundError :
  ¬ ∃ e : exception,
      (run (constant_server (mk_response 404 (JOther PNone)))
           (IncidentManager.get (M := Base.manager) 5) ()).1.2 = Raised e
      ∧ exc_class e = "NotFoundError".
Proof.
  intros (e & Hrun & Hclass). simpl in Hrun.
  injection Hrun as <-. discriminate Hclass.
Qed.

(** ** list and count *)

Section listing.
Context {St : Type} (handle : St → request → response * St) (s : St).
Context (path : string) (per_page : Z).

Lemma run_bind {A B : Type} (p : prog A) (f : A → prog B) (s0 : St) :
  run handle (p ≫= f) s0 =
    match run handle p s0 with
    | (sent, Returned a, s1) =>
        (sent ++ (run handle (f a) s1).1.1,
         (run handle (f a) s1).1.2, (run handle (f a) s1).2)
    | (sent, Raised e, s1) => (sent, Raised e, s1)
    end.
Proof.
  revert s0. induction p as [a | e | rq k IH]; intros s0.
  - simpl. by destruct (run handle (f a) s0) as [[??]?].
  - reflexivity.
  - change (Call rq k ≫= f) with (Call rq (λ r, k r ≫= f)).
    simpl. destruct (handle s0 rq) as [rs s1]. rewrite IH.
    destruct (run handle (k rs) s1) as [[sent [a|e]] s2]; reflexivity.
Qed.

(** The sequence with [buffer] still to hand out and [page] to ask for
    next. *)
Let gen (buffer : list dict) (page : option Z) : Manager.generator :=
  Manager.mk_generator path per_page buffer page.

Lemma drain_stop (fuel : nat) :
  run handle (Base.drain (S fuel) (gen [] None)) s =
    ([], Returned (Some []), s).
Proof. reflexivity. Qed.

Lemma drain_buffer (buffer : list dict) (page : option Z) (fuel : nat)
    (sent : list request) (l : list Resource.t) :
  run handle (Base.drain fuel (gen [] page)) s = (sent, Returned (Some l), s) →
  run handle (Base.drain (length buffer + fuel) (gen buffer page)) s =
    (sent, Returned (Some (map Resource.mk buffer ++ l)), s).
Proof.
  intros Hrest. induction buffer as [|d buffer IH]; [done|].
  change (Base.drain (length (d :: buffer) + fuel) (gen (d :: buffer) page))
    with (Base.drain (length buffer + fuel) (gen buffer page) ≫=
            λ l, Ret (option_map (cons (Resource.mk d)) l)).
  rewrite run_bind, IH. simpl. by rewrite app_nil_r.
Qed.

Lemma drain_fetch (fuel : nat) (page : Z) (rs : response)
    (data : list dict) (meta : pagination) :
  handle s (Base.page_request path page per_page) = (rs, s) →
  200 ≤ rs_status rs < 300 →
  rs_json rs = JPage data meta →
  run handle (Base.drain (S fuel) (gen [] (Some page))) s =
    (Base.page_request path page per_page ::
       (run handle (Base.drain fuel
          (gen data (if current_page meta =? total_pages meta
                     then None else Some (page + 1)))) s).1.1,
     (run handle (Base.drain fuel
          (gen data (if current_page meta =? total_pages meta
                     then None else Some (page + 1)))) s).1.2,
     (run handle (Base.drain fuel
          (gen data (if current_page meta =? total_pages meta
                     then None else Some (page + 1)))) s).2).
Proof.
  intros Hrs H2xx Hjson. simpl. rewrite Hrs.
  rewrite (checked_ok _ H2xx), Hjson. simpl.
  by destruct (run handle _ s) as [[??]?].
Qed.

Context (rows : list dict) (pages : list (list dict)).
Context (Hpaginates : paginates handle s path per_page rows pages).

(** From page [length pre + 1] on, with enough fuel, the sequence asks for
    the remaining pages in turn and hands out their entries. *)
Lemma drain_pages (rest pre : list (list dict)) (fuel : nat) :
  pages = pre ++ rest →
  rest ≠ [] →
  (length (concat rest) + length rest + 1 ≤ fuel)%nat →
  run handle
    (Base.drain fuel (gen [] (Some (Z.of_nat (length pre) + 1)))) s =
    (map (λ i : nat, Base.page_request path (Z.of_nat i + 1) per_page)
         (seq (length pre) (length rest)),
     Returned (Some (map Resource.mk (concat rest))), s).
Proof.
  revert pre fuel.
  induction rest as [|data rest IH]; intros pre fuel Hpages Hne Hfuel;
    [done|].
  assert (Hdata : pages !! length pre = Some data).
  { rewrite Hpages. by rewrite list_lookup_middle. }
  destruct (pages_served _ _ _ _ _ _ Hpaginates _ _ Hdata)
    as (rs & Hrs & H2xx & Hjson).
  simpl in Hfuel. rewrite length_app in Hfuel.
  destruct fuel as [|fuel]; [lia|].
  rewrite (drain_fetch _ _ _ _ _ Hrs H2xx Hjson). simpl current_page.
  simpl total_pages.
  replace fuel with (length data + (fuel - length data))%nat by lia.
  assert (Hlen : length pages = (length pre + S (length rest))%nat).
  { rewrite Hpages, length_app. reflexivity. }
  destruct rest as [|data' rest].
  - replace (Z.of_nat (length pre) + 1 =? Z.of_nat (length pages)) with true
      by (symmetry; apply Z.eqb_eq; simpl in Hlen; lia).
    destruct (fuel - length data)%nat as [|fuel'] eqn:Hfuel';
      [simpl in Hfuel; lia|].
    rewrite (drain_buffer data None _ _ _ (drain_stop fuel')).
    simpl. by rewrite !app_nil_r.
  - replace (Z.of_nat (length pre) + 1 =? Z.of_nat (length pages)) with false
      by (symmetry; apply Z.eqb_neq; simpl in Hlen; lia).
    specialize (IH (pre ++ [data]) (fuel - length data)%nat).
    rewrite length_app in IH. simpl (length [data]) in IH.
    replace (Z.of_nat (length pre + 1) + 1)
      with (Z.of_nat (length pre) + 1 + 1) in IH by lia.
    rewrite (drain_buffer data _ _ _ _ (IH ltac:(by rewrite <- app_assoc)
               ltac:(done) ltac:(simpl in *; lia))).
    cbn [fst snd]. rewrite Nat.add_1_r.
    change (concat (data :: data' :: rest))
      with (data ++ concat (data' :: rest)).
    rewrite map_app. reflexivity.
Qed.
End listing.

Section counting.
Context {St : Type} (handle : St → request → response * St) (s : St).
Context (path : string) (rows : list dict) (pages : list (list dict)).
Context (Hpaginates : paginates handle s path 1 rows pages).

(** [_count] asks for the first page, one entry a page, and reads
    [total]. *)
Lemma count_total :
  run handle (Base._count path) s =
    ([Base.page_request path 1 1], Returned (Z.of_nat (length rows)), s).
Proof.
  destruct pages as [|data rest] eqn:Hpages.
  { by destruct (pages_exist _ _ _ _ _ _ Hpaginates). }
  destruct (pages_served _ _ _ _ _ _ Hpaginates 0%nat data eq_refl)
    as (rs & Hrs & H2xx & Hjson).
  change (Z.of_nat 0 + 1) with 1 in Hrs.
  apply (run_call_silent handle _ _ _ _ _ _ Hrs).
  by rewrite (checked_ok _ H2xx), Hjson.
Qed.
End counting.

(** C8.  Against a server in a fixed state that lists the collection of
    incidents page by page, draining [list(1, per_page)] comes to an end
    (any bound on the loop from the number of entries plus the number of
    pages plus one on is enough), it asks for the pages in turn and hands
    out one incident for each entry of the collection, in order; [count()]
    returns the number of incidents handed out. *)
Theorem count_equals_drained_list {St : Type}
    (handle : St → request → response * St) (s : St) (rows : list dict)
    (per_page : Z) (pages pages1 : list (list dict)) :
  paginates handle s "incidents" per_page rows pages →
  paginates handle s "incidents" 1 rows pages1 →
  ∃ l : list Incident.t,
    (∀ fuel : nat,
       (length rows + length pages + 1 ≤ fuel)%nat →
       run handle
         (Base.drain fuel (IncidentManager.list (M := Base.manager) 1 per_page))
         s =
         (map (λ i : nat, Base.page_request "incidents" (Z.of_nat i + 1) per_page)
              (seq 0 (length pages)),
          Returned (Some l), s))
    ∧ run handle (IncidentManager.count (M := Base.manager)) s =
        ([Base.page_request "incidents" 1 1],
         Returned (Z.of_nat (length l)), s)
    ∧ l = map Resource.mk rows.
Proof.
  intros Hpages Hpages1. exists (map Resource.mk rows).
  split; [|split; [|done]].
  - intros fuel Hfuel.
    pose proof (pages_cover _ _ _ _ _ _ Hpages) as Hcover.
    rewrite <- Hcover.
    apply (drain_pages handle s "incidents" per_page rows pages Hpages
             pages [] fuel); [done | apply (pages_exist _ _ _ _ _ _ Hpages) |].
    by rewrite Hcover.
  - rewrite length_map.
    apply (count_total handle s "incidents" rows pages1 Hpages1).
Qed.

(** ** The listing server *)

Section listing_server.
Context (rows : list dict) (per_page : Z) (Hper_page : 1 ≤ per_page).

Lemma pages_prefix (k : nat) :
  concat ((λ i : nat, page_of rows (Z.of_nat i + 1) per_page) <$> seq 0 k) =
    take (k * Z.to_nat per_page) rows.
Proof.
  induction k as [|k IH]; [done|].
  rewrite seq_S, fmap_app, concat_app, IH. simpl.
  rewrite app_nil_r. unfold page_of.
  replace (Z.to_nat ((Z.of_nat k + 1 - 1) * per_page))
    with (k * Z.to_nat per_page)%nat by lia.
  rewrite take_take_drop. f_equal. lia.
Qed.

Lemma pages_of_ge_1 (size : Z) : 1 ≤ pages_of size per_page.
Proof. unfold pages_of. lia. Qed.

Lemma pages_of_enough (size : Z) : size ≤ pages_of size per_page * per_page.
Proof.
  unfold pages_of.
  pose proof (Z.div_mod (size + per_page - 1) per_page ltac:(lia)) as Hdm.
  pose proof (Z.mod_pos_bound (size + per_page - 1) per_page ltac:(lia)).
  nia.
Qed.

Lemma pages_for_cover : concat (pages_for rows per_page) = rows.
Proof.
  unfold pages_for. rewrite pages_prefix. apply take_ge.
  pose proof (pages_of_enough (Z.of_nat (length rows))).
  pose proof (pages_of_ge_1 (Z.of_nat (length rows))).
  nia.
Qed.

Lemma pages_for_length :
  Z.of_nat (length (pages_for rows per_page)) =
    pages_of (Z.of_nat (length rows)) per_page.
Proof.
  unfold pages_for. rewrite length_fmap, length_seq.
  pose proof (pages_of_ge_1 (Z.of_nat (length rows))). lia.
Qed.

(** The listing server lists its collection, whatever the path. *)
Lemma listing_server_paginates (path : string) :
  paginates (listing_server rows) () path per_page rows
    (pages_for rows per_page).
Proof.
  split.
  - apply pages_for_cover.
  - intros Hnil. pose proof pages_for_length as Hlen.
    rewrite Hnil in Hlen. pose proof (pages_of_ge_1 (Z.of_nat (length rows))).
    simpl in Hlen. lia.
  - intros i data Hdata. unfold pages_for in Hdata.
    apply list_lookup_fmap_Some in Hdata as (j & -> & Hj).
    apply lookup_seq in Hj as [-> _]. simpl.
    eexists. split; [reflexivity|]. split; [simpl; lia|].
    simpl. by rewrite pages_for_length.
Qed.
End listing_server.

Lemma count_equals_drained_list_witness :
  paginates (listing_server sample_rows) () "incidents" 1 sample_rows
    (pages_for sample_rows 1)
  ∧ run (listing_server sample_rows)
      (Base.drain 7 (IncidentManager.list (M := Base.manager) 1 1)) () =
      ([Base.page_request "incidents" 1 1; Base.page_request "incidents" 2 1;
        Base.page_request "incidents" 3 1],
       Returned (Some (map Resource.mk sample_rows)), ())
  ∧ run (listing_server sample_rows)
      (IncidentManager.count (M := Base.manager)) () =
      ([Base.page_request "incidents" 1 1], Returned 3, ()).
Proof.
  assert (Hpages : paginates (listing_server sample_rows) () "incidents" 1
                     sample_rows (pages_for sample_rows 1)).
  { apply listing_server_paginates. lia. }
  split; [exact Hpages|].
  destruct (count_equals_drained_list (listing_server sample_rows) ()
              sample_rows 1 _ _ Hpages Hpages) as (l & Hdrain & Hcount & ->).
  split.
  - apply (Hdrain 7%nat). vm_compute. lia.
  - exact Hcount.
Defined.

(** On the listing server the two always agree: whatever the collection and
    the page size, [count()] is the number of incidents that draining
    [list(1, per_page)] hands out. *)
Lemma listing_server_count_is_drained_length (rows : list dict) (per_page : Z) :
  1 ≤ per_page →
  ∃ (fuel : nat) (l : list Incident.t),
    (run (listing_server rows)
       (Base.drain fuel (IncidentManager.list (M := Base.manager) 1 per_page))
       ()).1.2 = Returned (Some l)
    ∧ (run (listing_server rows)
         (IncidentManager.count (M := Base.manager)) ()).1.2 =
        Returned (Z.of_nat (length l)).
Proof.
  intros Hper_page.
  exists (length rows + length (pages_for rows per_page) + 1)%nat,
         (map Resource.mk rows).
  pose proof (listing_server_paginates rows per_page Hper_page "incidents")
    as Hpages.
  pose proof (listing_server_paginates rows 1 ltac:(lia) "incidents")
    as Hpages1.
  split.
  - unfold IncidentManager.list, Manager._list_paginated, Base.manager,
      Base._list_paginated, IncidentManager.path.
    rewrite (drain_pages (listing_server rows) () "incidents" per_page rows
               (pages_for rows per_page) Hpages (pages_for rows per_page) []);
      [ simpl; by rewrite (pages_cover _ _ _ _ _ _ Hpages)
      | done
      | apply (pages_exist _ _ _ _ _ _ Hpages)
      | rewrite (pages_cover _ _ _ _ _ _ Hpages); lia ].
  - unfold IncidentManager.count, Manager._count, Base.manager,
      IncidentManager.path.
    rewrite (count_total (listing_server rows) () "incidents" rows
               (pages_for rows 1) Hpages1).
    simpl. by rewrite length_map.
Qed.

Lemma listing_server_count_is_drained_length_sample :
  1 ≤ 2 ∧
  ∃ (fuel : nat) (l : list Incident.t),
    (run (listing_server sample_rows)
       (Base.drain fuel (IncidentManager.list (M := Base.manager) 1 2))
       ()).1.2 = Returned (Some l)
    ∧ (run (listing_server sample_rows)
         (IncidentManager.count (M := Base.manager)) ()).1.2 =
        Returned (Z.of_nat (length l)).
Proof.
  split; [lia|]. apply listing_server_count_is_drained_length. lia.
Defined.

(** An incident that is there is returned. *)
Example get_found :
  run (constant_server (mk_response 200 (JEntity {[ "id" := PInt 5 ]})))
      (IncidentManager.get (M := Base.manager) 5) () =
    ([mk_request GET "incidents/5" ∅],
     Returned (Resource.mk {[ "id" := PInt 5 ]}), ()).
Proof. reflexivity. Qed.

(** * More about the code *)

(** ** Calls of create *)

Section create_calls.
Context {M : Manager.t}.

Lemma bind_create_positional (args : list pyval) (keywords : dict) :
  args ≠ [] → Calls.bind_create args keywords = None.
Proof.
  intros Hargs. unfold Calls.bind_create.
  by rewrite (bool_decide_eq_false_2 _ Hargs).
Qed.

Lemma bind_create_missing (args : list pyval) (keywords : dict) (p : string) :
  p ∈ Calls.required → keywords !! p = None →
  Calls.bind_create args keywords = None.
Proof.
  intros Hp Hnone. unfold Calls.bind_create.
  rewrite (bool_decide_eq_false_2
             (Forall (λ p, is_Some (keywords !! p)) Calls.required)).
  - by rewrite andb_false_r.
  - rewrite Forall_forall. intros Hall.
    destruct (Hall p Hp) as [v Hv]. congruence.
Qed.

Lemma bind_create_unknown (args : list pyval) (keywords : dict) (k : string) :
  is_Some (keywords !! k) → k ∉ Calls.params →
  Calls.bind_create args keywords = None.
Proof.
  intros [v Hv] Hk. unfold Calls.bind_create.
  rewrite (bool_decide_eq_false_2
             (map_Forall (λ k _, k ∈ Calls.params) keywords)).
  - by rewrite andb_false_r.
  - intros Hall. apply Hk. exact (Hall k v Hv).
Qed.

Lemma bind_create_accepted (keywords : dict) :
  (∀ k, is_Some (keywords !! k) → k ∈ Calls.params) →
  (∀ p, p ∈ Calls.required → is_Some (keywords !! p)) →
  Calls.bind_create [] keywords =
    Some (IncidentManager.mk_kwargs
            (Calls.by_keyword keywords "name" PNone)
            (Calls.by_keyword keywords "message" PNone)
            (Calls.by_keyword keywords "status" PNone)
            (Calls.by_keyword keywords "visible" (PBool true))
            (Calls.by_keyword keywords "component_id" PNone)
            (Calls.by_keyword keywords "component_status" PNone)
            (Calls.by_keyword keywords "notify" (PBool true))
            (Calls.by_keyword keywords "created_at" PNone)
            (Calls.by_keyword keywords "template" PNone)
            (Calls.by_keyword keywords "template_vars" PNone)).
Proof.
  intros Hknown Hrequired. unfold Calls.bind_create.
  rewrite bool_decide_eq_true_2 by done.
  rewrite bool_decide_eq_true_2 by (intros k v Hv; apply Hknown; eauto).
  rewrite bool_decide_eq_true_2 by (by apply Forall_forall).
  reflexivity.
Qed.
End create_calls.

(** X1.  [create] takes keyword arguments only: a call that passes anything
    by position raises [TypeError] when the arguments are bound, whatever
    the keywords are; the body of [create] is not entered and nothing is
    sent. *)
Theorem create_rejects_positional_arguments {M : Manager.t} {St : Type}
    (handle : St → request → response * St) (s : St)
    (args : list pyval) (keywords : dict) :
  args ≠ [] →
  run handle (Calls.create args keywords) s = ([], Raised Calls.TypeError, s).
Proof.
  intros Hargs. unfold Calls.create.
  by rewrite bind_create_positional.
Qed.

Lemma create_rejects_positional_arguments_witness :
  [ PStr "Something blew up!"; PStr "We are looking into it"; PInt 1 ] ≠ []
  ∧ run (constant_server (mk_response 200 (JEntity ∅)))
        (Calls.create (M := Base.manager)
           [ PStr "Something blew up!"; PStr "We are looking into it"; PInt 1 ]
           (list_to_map [ ("visible", PBool true); ("component_id", PInt 1);
                          ("component_status", PInt 4) ])) () =
      ([], Raised Calls.TypeError, ()).
Proof.
  split; [discriminate|].
  apply (create_rejects_positional_arguments (M := Base.manager)).
  discriminate.
Defined.

(** X2.  A call of [create] that leaves out one of [name], [message],
    [status], or that passes a keyword that is no parameter of [create],
    raises [TypeError] when the arguments are bound; nothing is sent. *)
Theorem create_rejects_missing_or_unknown_keywords {M : Manager.t} {St : Type}
    (handle : St → request → response * St) (s : St)
    (args : list pyval) (keywords : dict) :
  (∃ p, p ∈ Calls.required ∧ keywords !! p = None)
  ∨ (∃ k, is_Some (keywords !! k) ∧ k ∉ Calls.params) →
  run handle (Calls.create args keywords) s = ([], Raised Calls.TypeError, s).
Proof.
  intros [(p & Hp & Hnone) | (k & Hsome & Hk)]; unfold Calls.create.
  - by rewrite (bind_create_missing _ _ p).
  - by rewrite (bind_create_unknown _ _ k).
Qed.

Lemma create_rejects_missing_or_unknown_keywords_witness :
  ((∃ p, p ∈ Calls.required
         ∧ (list_to_map [ ("name", PStr "Outage"); ("status", PInt 1) ] : dict)
             !! p = None)
   ∨ (∃ k, is_Some ((list_to_map [ ("name", PStr "Outage");
                                   ("status", PInt 1) ] : dict) !! k)
           ∧ k ∉ Calls.params))
  ∧ run (constant_server (mk_response 200 (JEntity ∅)))
        (Calls.create (M := Base.manager) []
           (list_to_map [ ("name", PStr "Outage"); ("status", PInt 1) ])) () =
      ([], Raised Calls.TypeError, ()).
Proof.
  assert (H : (∃ p, p ∈ Calls.required
         ∧ (list_to_map [ ("name", PStr "Outage"); ("status", PInt 1) ] : dict)
             !! p = None)
   ∨ (∃ k, is_Some ((list_to_map [ ("name", PStr "Outage");
                                   ("status", PInt 1) ] : dict) !! k)
           ∧ k ∉ Calls.params)).
  { left. exists "message". split; [|reflexivity].
    unfold Calls.required. set_solver. }
  split; [exact H|].
  exact (create_rejects_missing_or_unknown_keywords (M := Base.manager)
           _ () [] _ H).
Defined.

(** X3.  A call of [create] by keywords that names only parameters and
    gives [name], [message] and [status] hands [_create] the path
    [incidents] and a dictionary of ten keys: what was given for each
    parameter, [None] for an optional one that was left out, [visible] and
    [notify] as 1 or 0 with 1 when left out, and the parameter
    [template_vars] under the key [vars]. *)
Theorem create_call_hands_over_defaults {M : Manager.t} (keywords : dict) :
  (∀ k, is_Some (keywords !! k) → k ∈ Calls.params) →
  (∀ p, p ∈ Calls.required → is_Some (keywords !! p)) →
  ∃ data : dict,
    Calls.create [] keywords = Manager._create "incidents" data
    ∧ data !! "name" = keywords !! "name"
    ∧ data !! "message" = keywords !! "message"
    ∧ data !! "status" = keywords !! "status"
    ∧ data !! "visible" =
        Some (flag (default (PBool true) (keywords !! "visible")))
    ∧ data !! "notify" =
        Some (flag (default (PBool true) (keywords !! "notify")))
    ∧ data !! "component_id" =
        Some (default PNone (keywords !! "component_id"))
    ∧ data !! "component_status" =
        Some (default PNone (keywords !! "component_status"))
    ∧ data !! "created_at" = Some (default PNone (keywords !! "created_at"))
    ∧ data !! "template" = Some (default PNone (keywords !! "template"))
    ∧ data !! "vars" = Some (default PNone (keywords !! "template_vars"))
    ∧ data !! "template_vars" = None
    ∧ size data = 10%nat.
Proof.
  intros Hknown Hrequired. eexists. unfold Calls.create.
  rewrite (bind_create_accepted _ Hknown Hrequired).
  split; [reflexivity|].
  destruct (Hrequired "name" ltac:(unfold Calls.required; set_solver))
    as [n Hn].
  destruct (Hrequired "message" ltac:(unfold Calls.required; set_solver))
    as [m Hm].
  destruct (Hrequired "status" ltac:(unfold Calls.required; set_solver))
    as [st Hst].
  unfold Calls.by_keyword. rewrite Hn, Hm, Hst.
  repeat split; reflexivity.
Qed.

Lemma create_call_hands_over_defaults_witness :
  (∀ k, is_Some ((list_to_map [ ("name", PStr "Outage");
                                ("message", PStr "Looking into it");
                                ("status", PInt 1) ] : dict) !! k) →
        k ∈ Calls.params)
  ∧ (∀ p, p ∈ Calls.required →
          is_Some ((list_to_map [ ("name", PStr "Outage");
                                  ("message", PStr "Looking into it");
                                  ("status", PInt 1) ] : dict) !! p))
  ∧ ∃ data : dict,
      Calls.create (M := Base.manager) []
        (list_to_map [ ("name", PStr "Outage");
                       ("message", PStr "Looking into it");
                       ("status", PInt 1) ]) = Base._create "incidents" data
      ∧ data !! "visible" = Some (PInt 1)
      ∧ data !! "notify" = Some (PInt 1)
      ∧ data !! "template" = Some PNone.
Proof.
  assert (Hknown : ∀ k,
    is_Some ((list_to_map [ ("name", PStr "Outage");
                            ("message", PStr "Looking into it");
                            ("status", PInt 1) ] : dict) !! k) →
    k ∈ Calls.params).
  { intros k [v Hv]. apply elem_of_list_to_map_2 in Hv.
    repeat (apply elem_of_cons in Hv as [[= -> ->] | Hv];
            [by apply (bool_decide_unpack _)|]).
    by apply elem_of_nil in Hv. }
  assert (Hrequired : ∀ p, p ∈ Calls.required →
    is_Some ((list_to_map [ ("name", PStr "Outage");
                            ("message", PStr "Looking into it");
                            ("status", PInt 1) ] : dict) !! p)).
  { intros p Hp. unfold Calls.required in Hp.
    repeat (apply elem_of_cons in Hp as [-> | Hp]; [by eexists|]).
    by apply elem_of_nil in Hp. }
  split; [exact Hknown|]. split; [exact Hrequired|].
  destruct (create_call_hands_over_defaults (M := Base.manager) _
              Hknown Hrequired)
    as (data & Hcall & _ & _ & _ & Hvisible & Hnotify & _ & _ & _ & Htemplate & _).
  exists data. repeat split; assumption.
Defined.

(** ** Calls of update *)

Section update_calls.
Context {M : Manager.t}.

(** [**kwargs] is not looked at. *)
Lemma update_extra_irrelevant (incident_id : Z) (kw : IncidentManager.kwargs)
    (extra extra' : dict) :
  IncidentManager.update incident_id kw extra =
    IncidentManager.update incident_id kw extra'.
Proof. reflexivity. Qed.

Lemma filter_params_lookup (keywords : dict) (p : string) :
  p ∈ Calls.params →
  filter (λ kv, kv.1 ∈ Calls.params) keywords !! p = keywords !! p.
Proof.
  intros Hp. rewrite map_lookup_filter.
  destruct (keywords !! p) as [v|]; simpl; [|done].
  by rewrite option_guard_True.
Qed.

Lemma filter_params_lookup_other (keywords : dict) (k : string) :
  k ∉ Calls.params →
  filter (λ kv, kv.1 ∈ Calls.params) keywords !! k = None.
Proof.
  intros Hk. apply map_lookup_filter_None. right. intros v _. exact Hk.
Qed.

Lemma by_position_filter_params (args : list pyval) (keywords : dict)
    (i : nat) (p : string) (dflt : pyval) :
  p ∈ Calls.params →
  Calls.by_position args (filter (λ kv, kv.1 ∈ Calls.params) keywords)
    i p dflt =
    Calls.by_position args keywords i p dflt.
Proof.
  intros Hp. unfold Calls.by_position, Calls.by_keyword.
  by rewrite filter_params_lookup.
Qed.
End update_calls.

Lemma params_NoDup : NoDup Calls.params.
Proof. by apply (bool_decide_unpack _). Qed.

Lemma params_no_incident_id : "incident_id" ∉ Calls.params.
Proof. by apply (bool_decide_unpack _). Qed.

Lemma params_no_self : "self" ∉ Calls.params.
Proof. by apply (bool_decide_unpack _). Qed.

(** X4.  [update] collects the keywords that name none of its parameters in
    [**kwargs] and does not look at them: a call does what the same call
    does without them.  So the stored fields of an incident can be passed as
    keywords as they are; [id], [human_status] and the timestamps do not
    count. *)
Theorem update_ignores_unknown_keywords {M : Manager.t}
    (incident_id : Z) (args : list pyval) (keywords : dict) :
  keywords !! "self" = None →
  keywords !! "incident_id" = None →
  Calls.update incident_id args keywords =
    Calls.update incident_id args
      (filter (λ kv, kv.1 ∈ Calls.params) keywords).
Proof.
  intros Hself Hid. unfold Calls.update, Calls.bind_update.
  rewrite !filter_params_lookup_other
    by (apply params_no_self || apply params_no_incident_id).
  rewrite (bool_decide_eq_true_2 (keywords !! "self" = None
                                  ∧ keywords !! "incident_id" = None))
    by done.
  rewrite (bool_decide_eq_true_2 (None = None ∧ None = None)) by done.
  assert (Hsame :
    bool_decide (Forall (λ p, filter (λ kv, kv.1 ∈ Calls.params) keywords !! p
                                = None)
                   (take (length args) Calls.params))
    = bool_decide (Forall (λ p, keywords !! p = None)
                     (take (length args) Calls.params))).
  { apply bool_decide_ext. rewrite !Forall_forall.
    split; intros Hall p Hp; specialize (Hall p Hp);
      rewrite filter_params_lookup in * by (by eapply subseteq_take);
      done. }
  rewrite Hsame.
  destruct (_ && _ && _); [|reflexivity].
  rewrite !by_position_filter_params by (by apply (bool_decide_unpack _)).
  reflexivity.
Qed.

Lemma update_ignores_unknown_keywords_witness :
  (list_to_map [ ("id", PInt 7); ("name", PStr "Outage");
                 ("message", PStr "Fixed"); ("status", PInt 4);
                 ("human_status", PStr "Fixed"); ("visible", PInt 1) ] : dict)
    !! "self" = None
  ∧ (list_to_map [ ("id", PInt 7); ("name", PStr "Outage");
                   ("message", PStr "Fixed"); ("status", PInt 4);
                   ("human_status", PStr "Fixed"); ("visible", PInt 1) ] : dict)
      !! "incident_id" = None
  ∧ Calls.update (M := Base.manager) 7 []
      (list_to_map [ ("id", PInt 7); ("name", PStr "Outage");
                     ("message", PStr "Fixed"); ("status", PInt 4);
                     ("human_status", PStr "Fixed"); ("visible", PInt 1) ]) =
    Calls.update (M := Base.manager) 7 []
      (filter (λ kv, kv.1 ∈ Calls.params)
         (list_to_map [ ("id", PInt 7); ("name", PStr "Outage");
                        ("message", PStr "Fixed"); ("status", PInt 4);
                        ("human_status", PStr "Fixed"); ("visible", PInt 1) ])).
Proof.
  split; [reflexivity|]. split; [reflexivity|].
  exact (update_ignores_unknown_keywords (M := Base.manager) 7 []
           (list_to_map [ ("id", PInt 7); ("name", PStr "Outage");
                          ("message", PStr "Fixed"); ("status", PInt 4);
                          ("human_status", PStr "Fixed"); ("visible", PInt 1) ])
           eq_refl eq_refl).
Defined.

(** The positional arguments, as keywords. *)
Lemma zipped_lookup (args : list pyval) (i : nat) (p : string) :
  Calls.params !! i = Some p →
  (list_to_map (zip Calls.params args) : dict) !! p = args !! i.
Proof.
  intros Hp.
  assert (Hin : ∀ y, (p, y) ∈ zip Calls.params args → args !! i = Some y).
  { intros y Hy. apply list_elem_of_lookup in Hy as [j Hj].
    apply lookup_zip_with_Some in Hj as (p' & y' & [= <- <-] & Hp' & Hy').
    by rewrite (NoDup_lookup _ _ _ _ params_NoDup Hp Hp'). }
  destruct (args !! i) as [v|] eqn:Hv.
  - apply elem_of_list_to_map_1'.
    + intros y Hy. apply Hin in Hy. congruence.
    + apply list_elem_of_lookup. exists i.
      apply lookup_zip_with_Some. by exists p, v.
  - apply not_elem_of_list_to_map_1. intros Hfst.
    apply list_elem_of_fmap in Hfst as ([p' y] & -> & Hy).
    apply Hin in Hy. discriminate.
Qed.

Lemma zipped_lookup_other (args : list pyval) (k : string) :
  k ∉ Calls.params →
  (list_to_map (zip Calls.params args) : dict) !! k = None.
Proof.
  intros Hk. apply not_elem_of_list_to_map_1. intros Hfst.
  apply list_elem_of_fmap in Hfst as ([p y] & -> & Hy).
  apply Hk. by eapply elem_of_zip_l.
Qed.

Lemma zipped_union_other (args : list pyval) (keywords : dict) (k : string) :
  k ∉ Calls.params →
  (list_to_map (zip Calls.params args) ∪ keywords) !! k = keywords !! k.
Proof.
  intros Hk. rewrite lookup_union, (zipped_lookup_other _ _ Hk).
  by destruct (keywords !! k).
Qed.

Lemma by_position_zipped (args : list pyval) (keywords : dict) (i : nat)
    (p : string) (dflt : pyval) :
  Calls.params !! i = Some p →
  Calls.by_position args keywords i p dflt =
    Calls.by_position []
      (list_to_map (zip Calls.params args) ∪ keywords) i p dflt.
Proof.
  intros Hp. unfold Calls.by_position, Calls.by_keyword.
  rewrite lookup_nil, lookup_union, (zipped_lookup _ _ _ Hp).
  destruct (args !! i) as [v|]; by destruct (keywords !! p).
Qed.

(** A call of [update] without further positional arguments. *)
Lemma bind_update_keywords_only (keywords : dict) :
  Calls.bind_update [] keywords =
    if bool_decide (keywords !! "self" = None
                    ∧ keywords !! "incident_id" = None)
    then Some (IncidentManager.mk_kwargs
                 (Calls.by_position [] keywords 0 "name" PNone)
                 (Calls.by_position [] keywords 1 "message" PNone)
                 (Calls.by_position [] keywords 2 "status" PNone)
                 (Calls.by_position [] keywords 3 "visible" PNone)
                 (Calls.by_position [] keywords 4 "component_id" PNone)
                 (Calls.by_position [] keywords 5 "component_status" PNone)
                 (Calls.by_position [] keywords 6 "notify" (PBool true))
                 (Calls.by_position [] keywords 7 "created_at" PNone)
                 (Calls.by_position [] keywords 8 "template" PNone)
                 (Calls.by_position [] keywords 9 "template_vars" PNone),
               filter (λ kv, kv.1 ∉ Calls.params) keywords)
    else None.
Proof.
  unfold Calls.bind_update.
  rewrite (bool_decide_eq_true_2 (length (@nil pyval) ≤ 10)%nat)
    by (simpl; lia).
  rewrite (bool_decide_eq_true_2
             (Forall (λ p, keywords !! p = None)
                (take (length (@nil pyval)) Calls.params)))
    by constructor.
  by rewrite andb_true_r.
Qed.

(** X5.  The parameters of [update] after [incident_id] can be given by
    position or by keyword, to the same effect: a call with positional
    arguments does what the call does that gives each of them under the name
    of its parameter, in the order [name], [message], [status], [visible],
    [component_id], [component_status], [notify], [created_at], [template],
    [template_vars]. *)
Theorem update_positional_as_keywords {M : Manager.t}
    (incident_id : Z) (args : list pyval) (keywords : dict) :
  (length args ≤ 10)%nat →
  Forall (λ p, keywords !! p = None) (take (length args) Calls.params) →
  Calls.update incident_id args keywords =
    Calls.update incident_id []
      (list_to_map (zip Calls.params args) ∪ keywords).
Proof.
  intros Hlen Honce. unfold Calls.update.
  rewrite bind_update_keywords_only. unfold Calls.bind_update.
  rewrite (bool_decide_eq_true_2 _ Hlen), (bool_decide_eq_true_2 _ Honce).
  rewrite !zipped_union_other
    by (apply params_no_self || apply params_no_incident_id).
  rewrite andb_true_r, andb_true_l.
  destruct (bool_decide (keywords !! "self" = None
                         ∧ keywords !! "incident_id" = None)); [|reflexivity].
  rewrite <- !by_position_zipped by reflexivity.
  reflexivity.
Qed.

Lemma update_positional_as_keywords_witness :
  (length [ PStr "Outage"; PStr "Fixed"; PInt 4; PBool true ] ≤ 10)%nat
  ∧ Forall (λ p, (∅ : dict) !! p = None)
      (take (length [ PStr "Outage"; PStr "Fixed"; PInt 4; PBool true ])
         Calls.params)
  ∧ Calls.update (M := Base.manager) 7
      [ PStr "Outage"; PStr "Fixed"; PInt 4; PBool true ] ∅ =
    Calls.update (M := Base.manager) 7 []
      (list_to_map [ ("name", PStr "Outage"); ("message", PStr "Fixed");
                     ("status", PInt 4); ("visible", PBool true) ]).
Proof.
  assert (Hlen :
    (length [ PStr "Outage"; PStr "Fixed"; PInt 4; PBool true ] ≤ 10)%nat)
    by (simpl; lia).
  assert (Honce : Forall (λ p, (∅ : dict) !! p = None)
      (take (length [ PStr "Outage"; PStr "Fixed"; PInt 4; PBool true ])
         Calls.params)).
  { apply Forall_forall. intros p _. apply lookup_empty. }
  split; [exact Hlen|]. split; [exact Honce|].
  rewrite (update_positional_as_keywords (M := Base.manager) 7 _ ∅ Hlen Honce).
  reflexivity.
Defined.

(** X6.  A call of [update] with more than ten positional arguments after
    [incident_id], with [self] or [incident_id] given again by keyword, or
    with a parameter given both by position and by keyword raises
    [TypeError] when the arguments are bound; nothing is sent. *)
Theorem update_rejects_ill_formed_call {M : Manager.t} {St : Type}
    (handle : St → request → response * St) (s : St)
    (incident_id : Z) (args : list pyval) (keywords : dict) :
  (10 < length args)%nat
  ∨ is_Some (keywords !! "self")
  ∨ is_Some (keywords !! "incident_id")
  ∨ (∃ (i : nat) (p : string),
       Calls.params !! i = Some p ∧ is_Some (args !! i)
       ∧ is_Some (keywords !! p)) →
  run handle (Calls.update incident_id args keywords) s =
    ([], Raised Calls.TypeError, s).
Proof.
  intros Hbad. unfold Calls.update, Calls.bind_update.
  destruct Hbad
    as [Hlong | [[v Hv] | [[v Hv] | (i & p & Hp & [a Ha] & [v Hv])]]].
  - rewrite (bool_decide_eq_false_2 (length args ≤ 10)%nat) by lia.
    reflexivity.
  - rewrite (bool_decide_eq_false_2 (keywords !! "self" = None ∧ _))
      by (intros [? _]; congruence).
    by rewrite andb_false_r.
  - rewrite (bool_decide_eq_false_2 (keywords !! "self" = None ∧ _))
      by (intros [_ ?]; congruence).
    by rewrite andb_false_r.
  - rewrite (bool_decide_eq_false_2 (Forall _ _)); [by rewrite andb_false_r|].
    rewrite Forall_forall. intros Hall.
    assert (Hin : p ∈ take (length args) Calls.params).
    { apply elem_of_take. exists i. split; [done|].
      by eapply lookup_lt_Some. }
    specialize (Hall p Hin). congruence.
Qed.

Lemma update_rejects_ill_formed_call_witness :
  ((10 < length [ PStr "Outage" ])%nat
   ∨ is_Some (({[ "name" := PStr "Other" ]} : dict) !! "self")
   ∨ is_Some (({[ "name" := PStr "Other" ]} : dict) !! "incident_id")
   ∨ (∃ (i : nat) (p : string),
        Calls.params !! i = Some p ∧ is_Some ([ PStr "Outage" ] !! i)
        ∧ is_Some (({[ "name" := PStr "Other" ]} : dict) !! p)))
  ∧ run (constant_server (mk_response 200 (JEntity ∅)))
        (Calls.update (M := Base.manager) 7 [ PStr "Outage" ]
           {[ "name" := PStr "Other" ]}) () =
      ([], Raised Calls.TypeError, ()).
Proof.
  assert (H : (10 < length [ PStr "Outage" ])%nat
   ∨ is_Some (({[ "name" := PStr "Other" ]} : dict) !! "self")
   ∨ is_Some (({[ "name" := PStr "Other" ]} : dict) !! "incident_id")
   ∨ (∃ (i : nat) (p : string),
        Calls.params !! i = Some p ∧ is_Some ([ PStr "Outage" ] !! i)
        ∧ is_Some (({[ "name" := PStr "Other" ]} : dict) !! p))).
  { right. right. right. exists 0%nat, "name". repeat split; by eexists. }
  split; [exact H|].
  exact (update_rejects_ill_formed_call (M := Base.manager) _ () 7 _ _ H).
Defined.



(** ** Getters after setters *)

Lemma key_inj (f g : property) : key f = key g → f = g.
Proof. by destruct f, g. Qed.

Lemma read_raw (f : property) (self : Incident.t) :
  read f self =
    match f with
    | visible => PBool (py_eq (Resource.get self "visible") (PInt 1))
    | _ => Resource.get self (key f)
    end.
Proof. by destruct f. Qed.

(** X8.  Reading a property after assigning to one: the property that was
    assigned reads as the value that was assigned, whatever it is (for
    [visible]: as whether that value equals 1), and every other property
    reads as it did before. *)
Theorem read_after_assign (f g : property) (value : pyval) (self : Incident.t) :
  (self' ← assign f value self; Ret (read g self')) =
    Ret (if decide (g = f)
         then match f with
              | visible => PBool (py_eq value (PInt 1))
              | _ => value
              end
         else read g self).
Proof.
  rewrite assign_spec. simpl. f_equal. rewrite !read_raw.
  case_decide as Hfg.
  - subst g. unfold Resource.get. simpl.
    destruct f; simpl; by rewrite lookup_insert_eq.
  - assert (Hkey : key f ≠ key g) by (intros Hk; by apply key_inj in Hk).
    unfold Resource.get. simpl.
    destruct g; simpl in *; by rewrite lookup_insert_ne.
Qed.

(** X9.  Two assignments in a row: to the same property, the second one
    wins and the first leaves no trace; to different properties, the order
    does not matter. *)
Theorem assign_twice (f g : property) (v w : pyval) (self : Incident.t) :
  (self' ← assign f v self; assign g w self') =
    if decide (f = g) then assign g w self
    else (self' ← assign g w self; assign f v self').
Proof.
  case_decide as Hfg.
  - subst g. rewrite !assign_spec. simpl. rewrite assign_spec. simpl.
    by rewrite insert_insert_eq.
  - assert (Hkey : key g ≠ key f) by (intros Hk; by apply key_inj in Hk).
    rewrite !assign_spec. simpl. rewrite !assign_spec. simpl.
    by rewrite insert_insert_ne.
Qed.

(** ** The live run *)

Section live_run_facts.
Context {St : Type} (handle : St → request → response * St).
Context (INCIDENT_INVESTIGATING COMPONENT_STATUS_MAJOR_OUTAGE : pyval).
Context (incidents : prog Manager.t).
Context (resource_delete : Manager.t → Incident.t → prog unit).


Lemma test_incidents_run (s : St) :
  run handle
    (live_run.test_incidents INCIDENT_INVESTIGATING
       COMPONENT_STATUS_MAJOR_OUTAGE incidents resource_delete) s =
    ((run handle incidents s).1.1,
     match (run handle incidents s).1.2 with
     | Returned _ => Raised Calls.TypeError
     | Raised e => Raised e
     end,
     (run handle incidents s).2).
Proof.
  unfold live_run.test_incidents. rewrite run_bind.
  destruct (run handle incidents s) as [[sent [m|e]] s1]; [|reflexivity].
  unfold Calls.create. rewrite bind_create_positional by done.
  simpl. by rewrite app_nil_r.
Qed.
End live_run_facts.

(** X10.  [test_incidents] calls [create] with its first three arguments by
    position, which [create] does not take: once the manager of incidents is
    there, the call raises [TypeError].  The test sends nothing but what
    getting hold of the manager sends, no incident is created and
    [issue.delete()] is not reached; the test never passes. *)
Theorem test_incidents_raises_TypeError {St : Type}
    (handle : St → request → response * St) (s : St)
    (INCIDENT_INVESTIGATING COMPONENT_STATUS_MAJOR_OUTAGE : pyval)
    (incidents : prog Manager.t)
    (resource_delete : Manager.t → Incident.t → prog unit) :
  run handle
    (live_run.test_incidents INCIDENT_INVESTIGATING
       COMPONENT_STATUS_MAJOR_OUTAGE incidents resource_delete) s =
    ((run handle incidents s).1.1,
     match (run handle incidents s).1.2 with
     | Returned _ => Raised Calls.TypeError
     | Raised e => Raised e
     end,
     (run handle incidents s).2).
Proof. apply test_incidents_run. Qed.

Section main_facts.
Context {St : Type} (handle : St → request → response * St).


End main_facts.

